(** * Drift detection of the bank-churn service

    A shallow embedding of [app/drift_detect.py] ([detect_drift],
    [generate_drift_report]), of [app/main.py] (the drift endpoint with
    [log_drift_to_insights], the prediction endpoints), of the request
    schema of [app/models.py] and of the form of [streamlit_app.py],
    followed by the properties the specification states about the drift
    check and by further properties of the code.

    Python floats are IEEE binary64 numbers and are modelled by Rocq's
    primitive floats, so [p < threshold], [drifted / total] and [* 100] are
    the very operations the interpreter performs (NaN included).  A Python
    [dict] keyed by column names is a [gmap string _]; the file system and
    the wall clock the function touches are an explicit [world] threaded
    through the calls, and a raised exception is the [Raise] outcome.

    The statistical test is the library's ([scipy.stats.ks_2samp]) and is a
    parameter of [detect_drift]; what is proved of the check holds for any
    comparator.  Module [KS] describes the test as section 4.2 of the
    specification does, with the p-value a real number (the asymptotic
    Kolmogorov distribution) rounded to a float. *)

From Stdlib Require Import ZArith QArith Qabs Reals Qreals Epsilon Floats Lia Lra.
From stdpp Require Import gmap strings list fin_maps.

Close Scope Q_scope.
#[local] Set Warnings "-inexact-float,-clear-no-such-hyp".

(** ** Exceptions and outcomes *)

Inductive exn :=
  | FileNotFoundError (filename : string)
  | PermissionError (filename : string)
  | KeyError (key : string)
  | ValueError (msg : string)
  | ZeroDivisionError.

Inductive outcome (A : Type) :=
  | Ok (a : A)
  | Raise (e : exn).
Arguments Ok {A} a.
Arguments Raise {A} e.

Definition obind {A B} (m : outcome A) (k : A → outcome B) : outcome B :=
  match m with
  | Ok a => k a
  | Raise e => Raise e
  end.

Notation "'try!' x ':=' m 'in' k" := (obind m (λ x, k))
  (at level 10, x name, m at level 100, k at level 200).

(** ** Python numbers *)

Module Py.

(** [float(n)] for a non-negative machine-size integer. *)
Definition float_of_Z (z : Z) : float := PrimFloat.of_uint63 (Uint63.of_Z z).
Definition float_of_nat (n : nat) : float := float_of_Z (Z.of_nat n).

(** [a / b] on integers: true division, [ZeroDivisionError] on [b = 0]. *)
Definition int_truediv (a b : nat) : outcome float :=
  if (b =? 0)%nat then Raise ZeroDivisionError
  else Ok (float_of_nat a / float_of_nat b)%float.

(** Nearest integer to [n / d] ([d > 0]), ties to the even one. *)
Definition div_half_even (n d : Z) : Z :=
  let q := (n / d)%Z in
  let r := (n mod d)%Z in
  match (2 * r ?= d)%Z with
  | Lt => q
  | Gt => (q + 1)%Z
  | Eq => if Z.even q then q else (q + 1)%Z
  end.

(** The integer nearest to [m * 2^e * 10^ndigits], ties to even: the
    decimal digits [float.__round__] obtains from the exact binary value. *)
Definition scaled_digits (m : positive) (e : Z) (ndigits : nat) : Z :=
  let n := (Z.pos m * 10 ^ Z.of_nat ndigits)%Z in
  if (0 <=? e)%Z then (n * 2 ^ e)%Z else div_half_even n (2 ^ (- e)).

(** [round(x, ndigits)] on a float: non-finite values and zeros are
    returned unchanged; otherwise the exact value of [x] is rounded
    half-even to [ndigits] decimals and the decimal is converted back to
    the nearest float.  The conversion back is the correctly rounded
    quotient [k / 10^ndigits], which is exact python behaviour as long as
    [k < 2^53], i.e. on the range of percentages this program rounds. *)
Definition round (x : float) (ndigits : nat) : float :=
  match Prim2SF x with
  | S754_finite s m e =>
      let k := scaled_digits m e ndigits in
      let r := (float_of_Z k / float_of_Z (10 ^ Z.of_nat ndigits))%float in
      if s then (- r)%float else r
  | _ => x
  end.

(** A number that is either an [int] or a [float]
    ([percentage] is the int [0] or a rounded float). *)
Inductive num :=
  | Int (z : Z)
  | Float (f : float).

(** [n < k] for an integer literal [k]. *)
Definition num_ltb (n : num) (k : Z) : bool :=
  match n with
  | Int z => (z <? k)%Z
  | Float f => (f <? float_of_Z k)%float
  end.

(** [k <= n] for an integer literal [k]. *)
Definition num_geb (n : num) (k : Z) : bool :=
  match n with
  | Int z => (k <=? z)%Z
  | Float f => (float_of_Z k <=? f)%float
  end.

End Py.

(** ** Data model *)

(** A data frame as [pandas.read_csv] returns it: the columns in header
    order, each a float64 series in which NaN marks a missing cell.  pandas
    makes the column labels of a parsed file unique. *)
Definition series := list float.
Definition frame := list (string * series).

Definition columns (df : frame) : list string := df.*1.

(** [df[col]] *)
Fixpoint frame_get (df : frame) (col : string) : outcome series :=
  match df with
  | [] => Raise (KeyError col)
  | (c, s) :: df' => if bool_decide (c = col) then Ok s else frame_get df' col
  end.

(** [s.dropna()] *)
Definition dropna (s : series) : series :=
  List.filter (λ x, negb (PrimFloat.is_nan x)) s.

(** One entry of the results dictionary. *)
Record FeatureDriftResult := {
  p_value : float;
  statistic : float;
  drift_detected : bool;
  type : string
}.

Inductive risk := LOW | MEDIUM | HIGH.

(** Records sent to the logger (the [custom_dimensions] of each call). *)
Inductive log_record :=
  | drift_detection (drift_percentage : Py.num) (risk_level : risk)
  | feature_drift (feature_name : string) (p stat : float) (ty : string)
  | drift_error (traceback : exn).

(** What the process can observe and change: the CSV files that exist
    (parsed), the directories that exist with whether files can be written
    in them, whether a missing directory can be created, the formatted wall
    clock, the JSON artifacts written so far and the telemetry sent. *)
Record world := {
  csv_files : gmap string frame;
  directories : gmap string bool;
  may_create_directories : bool;
  clock : string;
  artifacts : gmap string (gmap string FeatureDriftResult);
  telemetry : list log_record
}.

Definition io (A : Type) := world → outcome A * world.

Definition ret {A} (a : A) : io A := λ w, (Ok a, w).

Definition bind {A B} (m : io A) (k : A → io B) : io B :=
  λ w, match m w with
       | (Ok a, w') => k a w'
       | (Raise e, w') => (Raise e, w')
       end.

Definition lift {A} (o : outcome A) : io A := λ w, (o, w).

Notation "'do!' x ':=' m 'in' k" := (bind m (λ x, k))
  (at level 10, x name, m at level 100, k at level 200).

(** [os.makedirs(d, exist_ok=True)].  The world keeps the directory named
    in the call, the one the report is written into; the parents that the
    library creates on the way to a nested [d] are not recorded. *)
Definition makedirs (d : string) : io unit := λ w,
  match directories w !! d with
  | Some _ => (Ok (), w)
  | None =>
      if may_create_directories w
      then (Ok (), {| csv_files := csv_files w;
                      directories := <[d := true]> (directories w);
                      may_create_directories := may_create_directories w;
                      clock := clock w;
                      artifacts := artifacts w;
                      telemetry := telemetry w |})
      else (Raise (PermissionError d), w)
  end.

(** [pd.read_csv(path)] *)
Definition read_csv (path : string) : io frame := λ w,
  match csv_files w !! path with
  | Some df => (Ok df, w)
  | None => (Raise (FileNotFoundError path), w)
  end.

(** [datetime.now().strftime('%Y%m%d_%H%M%S')] *)
Definition strftime_now : io string := λ w, (Ok (clock w), w).

(** [with open(path, "w") as f: json.dump(results, f, indent=2)] for a
    [path] inside directory [dir]. *)
Definition json_dump (dir path : string)
    (results : gmap string FeatureDriftResult) : io unit := λ w,
  match directories w !! dir with
  | Some true =>
      (Ok (), {| csv_files := csv_files w;
                 directories := directories w;
                 may_create_directories := may_create_directories w;
                 clock := clock w;
                 artifacts := <[path := results]> (artifacts w);
                 telemetry := telemetry w |})
  | Some false => (Raise (PermissionError path), w)
  | None => (Raise (FileNotFoundError path), w)
  end.

(** [logger.warning(..)] / [logger.error(..)] *)
Definition log (r : log_record) : io unit := λ w,
  (Ok (), {| csv_files := csv_files w;
             directories := directories w;
             may_create_directories := may_create_directories w;
             clock := clock w;
             artifacts := artifacts w;
             telemetry := telemetry w ++ [r] |}).

(** ** [app/drift_detect.py] *)

Section DriftDetect.

(** [scipy.stats.ks_2samp]: the library call, returning [(stat, p)] or
    raising. *)
Variable ks_2samp : series → series → outcome (float * float).

(** The body of [for col in ref.columns]. *)
Fixpoint drift_loop (cols : list string) (ref prod : frame) (threshold : float)
    (results : gmap string FeatureDriftResult)
    : outcome (gmap string FeatureDriftResult) :=
  match cols with
  | [] => Ok results
  | col :: cols' =>
      if bool_decide (col ≠ "Exited") && bool_decide (col ∈ columns prod) then
        try! r := frame_get ref col in
        try! q := frame_get prod col in
        try! sp := ks_2samp (dropna r) (dropna q) in
        let '(stat, p) := sp in
        drift_loop cols' ref prod threshold
          (<[col := {| p_value := p;
                       statistic := stat;
                       drift_detected := (p <? threshold)%float;
                       type := "numerical" |}]> results)
      else drift_loop cols' ref prod threshold results
  end.

Definition report_path (output_dir now : string) : string :=
  output_dir +:+ "/drift_" +:+ now +:+ ".json".

Definition detect_drift (reference_file production_file : string)
    (threshold : float) (output_dir : string)
    : io (gmap string FeatureDriftResult) :=
  do! _ := makedirs output_dir in
  do! ref := read_csv reference_file in
  do! prod := read_csv production_file in
  do! results := lift (drift_loop (columns ref) ref prod threshold ∅) in
  do! now := strftime_now in
  do! _ := json_dump output_dir (report_path output_dir now) results in
  ret results.

(** The guard of the loop body. *)
Definition retained (prod : frame) (col : string) : bool :=
  bool_decide (col ≠ "Exited") && bool_decide (col ∈ columns prod).

(** The dictionary entry the loop body builds for one column. *)
Definition compare_column (ref prod : frame) (threshold : float) (col : string)
    : outcome FeatureDriftResult :=
  try! r := frame_get ref col in
  try! q := frame_get prod col in
  try! sp := ks_2samp (dropna r) (dropna q) in
  Ok {| p_value := sp.2;
        statistic := sp.1;
        drift_detected := (sp.2 <? threshold)%float;
        type := "numerical" |}.

End DriftDetect.

(** ** The two-sample comparison *)

Module KS.

Fixpoint insert_sorted (x : float) (s : series) : series :=
  match s with
  | [] => [x]
  | y :: s' => if (x <=? y)%float then x :: s else y :: insert_sorted x s'
  end.

Definition sort (s : series) : series := foldr insert_sorted [] s.

Fixpoint merge (s1 : series) : series → series :=
  match s1 with
  | [] => λ s2, s2
  | x :: s1' =>
      fix merge_into (s2 : series) : series :=
        match s2 with
        | [] => s1
        | y :: s2' =>
            if (x <=? y)%float then x :: merge s1' s2 else y :: merge_into s2'
        end
  end.

(** Number of observations that are [<= x]. *)
Definition count_le (s : series) (x : float) : nat :=
  length (List.filter (λ y, (y <=? x)%float) s).

(** The empirical CDF of a non-empty sample, an exact fraction. *)
Definition ecdf (s : series) (x : float) : Q :=
  Z.of_nat (count_le s x) # Pos.of_nat (length s).

Definition Qmax (a b : Q) : Q := if Qle_bool a b then b else a.

(** [D = sup_x |F1(x) - F2(x)|]: the largest gap met while walking the
    merged sorted values (the supremum is reached at a sample point). *)
Definition sup_gap (s1 s2 : series) : Q :=
  let s1 := sort s1 in
  let s2 := sort s2 in
  foldl (λ d x, Qmax d (Qabs (ecdf s1 x - ecdf s2 x)%Q)) 0%Q (merge s1 s2).

(** [n_eff = n1*n2/(n1+n2)] *)
Definition n_eff (n1 n2 : nat) : Q :=
  Z.of_nat (n1 * n2) # Pos.of_nat (n1 + n2).

(** The float nearest to a non-negative fraction. *)
Definition to_float (q : Q) : float :=
  let r := Qred q in
  (Py.float_of_Z (Qnum r) / Py.float_of_Z (Z.pos (Qden r)))%float.

Section Comparator.

(** What the library call does with an empty sample.  Section 4.2 leaves
    statistic and p-value undefined there, and the sources do not say which
    version of the library runs: the comparison of an empty sample is
    whatever outcome this is. *)
Variable degenerate : outcome (float * float).

(** The p-value as a function of the effective sample size and of the
    gap [d]. *)
Variable survival : Q → Q → float.

(** Modelled from the spec: the two-sample Kolmogorov-Smirnov test
    ([scipy.stats.ks_2samp], a library whose code is not part of the
    sources).  Following section 4.2: build the empirical CDFs of the two
    samples, take the maximum vertical gap between them over the merged
    sorted values as the statistic, and read the p-value off the
    distribution of the gap at the effective sample size.  With an empty
    sample "statistic and p-value are undefined by the test": the answer
    is [degenerate]. *)
Definition ks_2samp (data1 data2 : series) : outcome (float * float) :=
  match data1, data2 with
  | [], _ | _, [] => degenerate
  | _, _ =>
      let d := sup_gap data1 data2 in
      Ok (to_float d, survival (n_eff (length data1) (length data2)) d)
  end.

End Comparator.

(** *** The asymptotic Kolmogorov distribution *)




(** [exp(-2 k^2 x^2)] for [k = 1, 2, ...] (counted from 0). *)
Definition kolmogorov_amplitude (x : R) (k : nat) : R :=
  exp (- (2 * (INR (S k) * INR (S k)) * (x * x))).

(** The terms [(-1)^(k-1) exp(-2 k^2 x^2)] of the series. *)
Definition kolmogorov_term (x : R) (k : nat) : R :=
  ((-1) ^ k * kolmogorov_amplitude x k)%R.

(** The sum of a convergent series. *)
Definition series_sum (u : nat → R) : R :=
  epsilon (inhabits 0%R) (infinite_sum u).

(** Modelled from the spec: the survival function of the asymptotic
    Kolmogorov distribution, the law of the supremum [K] of the absolute
    value of a Brownian bridge:
    [P(K >= x) = 2 * sum_(k >= 1) (-1)^(k-1) exp(-2 k^2 x^2)] for [x > 0];
    [K] is positive, so the probability is 1 for [x <= 0]. *)
Definition kolmogorov_sf (x : R) : R :=
  if Rle_dec x 0 then 1%R else (2 * series_sum (kolmogorov_term x))%R.


(** A computable stand-in for the survival function, for the examples:
    the series [2 * sum_k (-1)^(k-1) exp(-2 k^2 n d^2)] is bounded by its
    first term and [exp(-y) <= 1/(1+y)], so [min 1 (2 / (1 + 2 n d^2))] is
    an upper bound that is [1] at [d = 0]. *)
Definition sf_upper_bound (n d : Q) : float :=
  let b := (2 / (1 + 2 * n * d * d))%Q in
  to_float (if Qle_bool 1 b then 1%Q else b).

End KS.


(** ** [app/main.py]: drift logging and the drift endpoint *)

(** [sum(1 for r in drift_results.values() if r.get("drift_detected"))] *)
Definition count_drifted (drift_results : gmap string FeatureDriftResult) : nat :=
  sum_list ((λ _, 1) <$> List.filter drift_detected (map_to_list drift_results).*2).

(** [round((drifted / total) * 100, 2) if total else 0] *)
Definition drift_percentage (drift_results : gmap string FeatureDriftResult)
    : outcome Py.num :=
  let total := size drift_results in
  let drifted := count_drifted drift_results in
  if bool_decide (total ≠ 0) then
    try! q := Py.int_truediv drifted total in
    Ok (Py.Float (Py.round (q * 100)%float 2))
  else Ok (Py.Int 0).

(** ["LOW" if percentage < 20 else "MEDIUM" if percentage < 50 else "HIGH"] *)
Definition risk_of (percentage : Py.num) : risk :=
  if Py.num_ltb percentage 20 then LOW
  else if Py.num_ltb percentage 50 then MEDIUM
  else HIGH.

(** The loop over [drift_results.items()].  The dictionary is iterated in
    the order of [map_to_list]; Python iterates in insertion order, which
    the map does not record. *)
Fixpoint log_features (items : list (string * FeatureDriftResult)) : io unit :=
  match items with
  | [] => ret ()
  | (feature, details) :: items' =>
      if drift_detected details then
        do! _ := log (feature_drift feature (p_value details)
                        (statistic details) (type details)) in
        log_features items'
      else log_features items'
  end.

Definition log_drift_to_insights (drift_results : gmap string FeatureDriftResult)
    : io unit :=
  do! percentage := lift (drift_percentage drift_results) in
  let risk := risk_of percentage in
  do! _ := log (drift_detection percentage risk) in
  log_features (map_to_list drift_results).

(** The JSON body of a successful response, or the [HTTPException] raised. *)
Inductive response :=
  | success (features_analyzed features_drifted : nat)
      (results : gmap string FeatureDriftResult)
  | HTTPException (status_code : nat) (detail : string).

(** [str(e)] *)
Definition str (e : exn) : string :=
  match e with
  | FileNotFoundError f => "[Errno 2] No such file or directory: '" +:+ f +:+ "'"
  | PermissionError f => "[Errno 13] Permission denied: '" +:+ f +:+ "'"
  | KeyError k => "'" +:+ k +:+ "'"
  | ValueError m => m
  | ZeroDivisionError => "division by zero"
  end.

Definition default_threshold : float := 0.05%float.
Definition default_output_dir : string := "drift_reports".

Section Endpoint.

Variable ks_2samp : series → series → outcome (float * float).

Definition check_drift (threshold : float) : world → response * world := λ w,
  let body :=
    do! results := detect_drift ks_2samp "data/bank_churn.csv"
                     "data/production_data.csv" threshold default_output_dir in
    do! _ := log_drift_to_insights results in
    ret (success (size results)
           (sum_list ((λ _, 1) <$>
              List.filter drift_detected (map_to_list results).*2))
           results) in
  match body w with
  | (Ok r, w') => (r, w')
  | (Raise (FileNotFoundError f), w') =>
      (HTTPException 404 ("Fichier non trouvé: " +:+ str (FileNotFoundError f)), w')
  | (Raise e, w') =>
      (HTTPException 500 "Drift check failed", snd (log (drift_error e) w'))
  end.

End Endpoint.

(** ** Vocabulary of the statements *)

(** The features a results dictionary flags as drifted. *)
Definition flagged (results : gmap string FeatureDriftResult) : gset string :=
  dom (filter (λ kv, drift_detected kv.2 = true) results).

(** The [feature_drift] records of the flagged entries. *)
Definition feature_records (items : list (string * FeatureDriftResult))
    : list log_record :=
  (λ kv, feature_drift kv.1 (p_value kv.2) (statistic kv.2) (type kv.2))
    <$> List.filter (λ kv, drift_detected kv.2) items.

Definition with_telemetry (w : world) (records : list log_record) : world :=
  {| csv_files := csv_files w;
     directories := directories w;
     may_create_directories := may_create_directories w;
     clock := clock w;
     artifacts := artifacts w;
     telemetry := telemetry w ++ records |}.

(** ** Example inputs *)

Definition the_results (o : outcome (gmap string FeatureDriftResult))
    : gmap string FeatureDriftResult :=
  match o with
  | Ok results => results
  | Raise _ => ∅
  end.

(** The comparator used in the examples: it rejects an empty sample and
    takes the computable bound for the p-value. *)
Definition demo_ks : series → series → outcome (float * float) :=
  KS.ks_2samp (Raise (ValueError "Data passed to ks_2samp must not be empty"))
    KS.sf_upper_bound.

(** A comparator that answers NaN for an empty sample. *)
Definition lenient_ks : series → series → outcome (float * float) :=
  KS.ks_2samp (Ok (nan, nan)%float) KS.sf_upper_bound.

Definition demo_reference : frame :=
  [("CreditScore", [600; 650; 700; 750]%float);
   ("Age", [30; 40; 50; 60]%float);
   ("Balance", [0; 1000; 2000; 3000]%float);
   ("Exited", [0; 1; 0; 1]%float)].

Definition demo_production : frame :=
  [("Age", [61; 62; 63; 64; 65; 66; 67; 68]%float);
   ("Balance", [0; nan; 1000; 2000; 3000]%float);
   ("Exited", [0; 0; 1; 0]%float);
   ("Geography_Spain", [0; 1; 1; 0]%float)].

(** The production file with an empty [Balance] column. *)
Definition degenerate_production : frame :=
  [("Age", [61; 62; 63; 64; 65; 66; 67; 68]%float);
   ("Balance", [nan; nan; nan; nan]%float);
   ("Exited", [0; 0; 1; 0]%float)].

Definition world_of (files : gmap string frame) (dirs : gmap string bool)
    (creatable : bool) : world :=
  {| csv_files := files;
     directories := dirs;
     may_create_directories := creatable;
     clock := "20240101_120000";
     artifacts := ∅;
     telemetry := [] |}.

Definition demo_files : gmap string frame :=
  {[ "data/bank_churn.csv" := demo_reference;
     "data/production_data.csv" := demo_production ]}.

(** Both files present, output directory to be created. *)
Definition demo_world : world := world_of demo_files ∅ true.

(** One feature of the production file has no value left. *)
Definition degenerate_world : world :=
  world_of {[ "data/bank_churn.csv" := demo_reference;
              "data/production_data.csv" := degenerate_production ]} ∅ true.




Definition demo_run (t : float) (w : world)
    : outcome (gmap string FeatureDriftResult) * world :=
  detect_drift demo_ks "data/bank_churn.csv" "data/production_data.csv" t
    default_output_dir w.


(** The degenerate check with the comparator that answers NaN. *)
Definition lenient_run (t : float) (w : world)
    : outcome (gmap string FeatureDriftResult) * world :=
  detect_drift lenient_ks "data/bank_churn.csv" "data/production_data.csv" t
    default_output_dir w.

(** ** Vocabulary of the further properties *)

(** The sample a column contributes to a comparison: [df[col].dropna()]. *)
Definition sample_of (df : frame) (col : string) : outcome series :=
  try! s := frame_get df col in Ok (dropna s).

(** Two pairs of data frames that present the same columns and the same
    samples in every column the loop compares. *)
Definition same_compared_samples (ref prod ref' prod' : frame) : Prop :=
  columns ref = columns ref' ∧
  (∀ col, col ∈ columns prod ↔ col ∈ columns prod') ∧
  (∀ col, col ∈ columns ref → col ≠ "Exited" → col ∈ columns prod →
     sample_of ref col = sample_of ref' col ∧
     sample_of prod col = sample_of prod' col).

(** The world when the clock reads [now]. *)
Definition at_time (now : string) (w : world) : world :=
  {| csv_files := csv_files w;
     directories := directories w;
     may_create_directories := may_create_directories w;
     clock := now;
     artifacts := artifacts w;
     telemetry := telemetry w |}.

(** ** [app/drift_detect.py]: the visual report *)

Inductive colour := red | green.

(** The figure [generate_drift_report] draws: the horizontal bars
    [plt.barh(features, p_values, color=colors)], the vertical line of
    [plt.axvline], the axis label and the title. *)
Record figure := {
  bars : list (string * float * colour);
  axvline : float;
  xlabel : string;
  title : string
}.

(** The file system together with the images saved on it. *)
Record desk := {
  filesystem : world;
  images : gmap string figure
}.

(** An operation on the file system, run at a desk. *)
Definition on_filesystem {A} (m : io A) (d : desk) : outcome A * desk :=
  let r := m (filesystem d) in
  (r.1, {| filesystem := r.2; images := images d |}).

(** [plt.savefig(path)] for a [path] inside directory [dir]. *)
Definition savefig (dir path : string) (fig : figure) (d : desk)
    : outcome unit * desk :=
  match directories (filesystem d) !! dir with
  | Some true =>
      (Ok (), {| filesystem := filesystem d;
                 images := <[path := fig]> (images d) |})
  | Some false => (Raise (PermissionError path), d)
  | None => (Raise (FileNotFoundError path), d)
  end.

(** [[results[f][field] for f in features]] *)
Fixpoint lookup_all {A} (field : FeatureDriftResult → A)
    (results : gmap string FeatureDriftResult) (features : list string)
    : outcome (list A) :=
  match features with
  | [] => Ok []
  | f :: features' =>
      match results !! f with
      | Some r =>
          try! rest := lookup_all field results features' in
          Ok (field r :: rest)
      | None => Raise (KeyError f)
      end
  end.

(** [zip] of three lists. *)
Definition zip3 {A B C} (l1 : list A) (l2 : list B) (l3 : list C)
    : list (A * B * C) :=
  zip (zip l1 l2) l3.

Definition figure_path (output_dir now : string) : string :=
  output_dir +:+ "/drift_report_" +:+ now +:+ ".png".

(** [generate_drift_report(results, output_dir)].  The keys are listed in
    the order of [map_to_list]. *)
Definition generate_drift_report (results : gmap string FeatureDriftResult)
    (output_dir : string) (d : desk) : outcome string * desk :=
  match on_filesystem (makedirs output_dir) d with
  | (Raise e, d1) => (Raise e, d1)
  | (Ok _, d1) =>
      let features := (map_to_list results).*1 in
      match lookup_all p_value results features with
      | Raise e => (Raise e, d1)
      | Ok p_values =>
          match lookup_all drift_detected results features with
          | Raise e => (Raise e, d1)
          | Ok drifted =>
              let colors :=
                (λ x : bool, if x then red else green) <$> drifted in
              let fig :=
                {| bars := zip3 features p_values colors;
                   axvline := 0.05%float;
                   xlabel := "P-Value";
                   title := "Drift Detection - P-Values par Feature" |} in
              let path := figure_path output_dir (clock (filesystem d1)) in
              match savefig output_dir path fig d1 with
              | (Raise e, d2) => (Raise e, d2)
              | (Ok _, d2) => (Ok path, d2)
              end
          end
      end
  end.

(** The bar drawn for one entry. *)
Definition bar_of (kv : string * FeatureDriftResult) : string * float * colour :=
  (kv.1, p_value kv.2, if drift_detected kv.2 then red else green).

(** The figure drawn for a results dictionary. *)
Definition figure_of (results : gmap string FeatureDriftResult) : figure :=
  {| bars := bar_of <$> map_to_list results;
     axvline := 0.05%float;
     xlabel := "P-Value";
     title := "Drift Detection - P-Values par Feature" |}.

(** ** [app/main.py] and [app/models.py]: the prediction endpoints *)

(** The request body of [/predict] ([CustomerFeatures]). *)
Record CustomerFeatures := {
  CreditScore : Z;
  Age : Z;
  Tenure : Z;
  Balance : float;
  NumOfProducts : Z;
  HasCrCard : Z;
  IsActiveMember : Z;
  EstimatedSalary : float;
  Geography_Germany : Z;
  Geography_Spain : Z
}.

(** The [Field(..., ge=, le=)] constraints of [CustomerFeatures]. *)
Definition within_schema (c : CustomerFeatures) : bool :=
  (300 <=? CreditScore c)%Z && (CreditScore c <=? 850)%Z &&
  (18 <=? Age c)%Z && (Age c <=? 100)%Z &&
  (0 <=? Tenure c)%Z && (Tenure c <=? 10)%Z &&
  (0 <=? Balance c)%float &&
  (1 <=? NumOfProducts c)%Z && (NumOfProducts c <=? 4)%Z &&
  (0 <=? HasCrCard c)%Z && (HasCrCard c <=? 1)%Z &&
  (0 <=? IsActiveMember c)%Z && (IsActiveMember c <=? 1)%Z &&
  (0 <=? EstimatedSalary c)%float &&
  (0 <=? Geography_Germany c)%Z && (Geography_Germany c <=? 1)%Z &&
  (0 <=? Geography_Spain c)%Z && (Geography_Spain c <=? 1)%Z.

(** The row [np.array([[...]])] handed to the model. *)
Definition input_data (features : CustomerFeatures) : list float :=
  [Py.float_of_Z (CreditScore features);
   Py.float_of_Z (Age features);
   Py.float_of_Z (Tenure features);
   Balance features;
   Py.float_of_Z (NumOfProducts features);
   Py.float_of_Z (HasCrCard features);
   Py.float_of_Z (IsActiveMember features);
   EstimatedSalary features;
   Py.float_of_Z (Geography_Germany features);
   Py.float_of_Z (Geography_Spain features)].

(** A loaded model, as the endpoints use it:
    [model.predict_proba(input_data)[0][1]], which may raise. *)
Definition classifier := list float → outcome float.

Inductive churn_risk := Low | Medium | High.

Record PredictionResponse := {
  churn_probability : float;
  prediction : Z;
  risk_level : churn_risk
}.

(** What an endpoint hands back: a body, or the [HTTPException] raised. *)
Inductive reply (A : Type) :=
  | Respond (body : A)
  | Abort (status_code : nat) (detail : string).
Arguments Respond {A} body.
Arguments Abort {A} status_code detail.

(** The records the prediction endpoints send to the logger. *)
Inductive prediction_log :=
  | prediction_record (probability : float) (predicted : Z) (risk : churn_risk)
  | prediction_error (error : string)
  | batch_prediction (count : nat)
  | batch_prediction_error (error : string).

(** [int(proba > 0.5)] *)
Definition predicted_class (proba : float) : Z :=
  if (0.5 <? proba)%float then 1 else 0.

(** ["Low" if proba < 0.3 else "Medium" if proba < 0.7 else "High"] *)
Definition churn_risk_of (proba : float) : churn_risk :=
  if (proba <? 0.3)%float then Low
  else if (proba <? 0.7)%float then Medium
  else High.

Definition health (model : option classifier) : reply (string * bool) :=
  match model with
  | None => Abort 503 "Model not loaded"
  | Some _ => Respond ("healthy", true)
  end.

Definition predict (model : option classifier) (features : CustomerFeatures)
    : reply PredictionResponse * list prediction_log :=
  match model with
  | None => (Abort 503 "Model unavailable", [])
  | Some m =>
      match m (input_data features) with
      | Ok proba =>
          let prediction := predicted_class proba in
          let risk := churn_risk_of proba in
          (Respond {| churn_probability := Py.round proba 4;
                      prediction := prediction;
                      risk_level := risk |},
           [prediction_record proba prediction risk])
      | Raise e => (Abort 500 (str e), [prediction_error (str e)])
      end
  end.

(** The loop of [predict_batch]: [predictions.append(...)] per customer. *)
Fixpoint batch_loop (m : classifier) (features_list : list CustomerFeatures)
    (predictions : list (float * Z)) : outcome (list (float * Z)) :=
  match features_list with
  | [] => Ok predictions
  | features :: features_list' =>
      try! proba := m (input_data features) in
      batch_loop m features_list'
        (predictions ++ [(Py.round proba 4, predicted_class proba)])
  end.

Definition predict_batch (model : option classifier)
    (features_list : list CustomerFeatures)
    : reply (list (float * Z) * nat) * list prediction_log :=
  match model with
  | None => (Abort 503 "Model unavailable", [])
  | Some m =>
      match batch_loop m features_list [] with
      | Ok predictions =>
          (Respond (predictions, length predictions),
           [batch_prediction (length predictions)])
      | Raise e => (Abort 500 (str e), [batch_prediction_error (str e)])
      end
  end.

(** ** [streamlit_app.py]: the single-customer form *)

(** The values of the form's widgets. *)
Record form := {
  credit_score : Z;
  age : Z;
  tenure : Z;
  geography : string;
  balance : float;
  num_products : Z;
  estimated_salary : float;
  has_cr_card : bool;
  is_active_member : bool
}.

(** What the widgets guarantee: a slider's value lies between its bounds,
    a select box holds one of its options, a number input is not below
    its [min_value]. *)
Definition widget_ranges (f : form) : Prop :=
  (300 ≤ credit_score f ≤ 850)%Z ∧
  (18 ≤ age f ≤ 100)%Z ∧
  (0 ≤ tenure f ≤ 10)%Z ∧
  geography f ∈ ["France"; "Allemagne"; "Espagne"] ∧
  (0 <=? balance f)%float = true ∧
  (1 ≤ num_products f ≤ 4)%Z ∧
  (0 <=? estimated_salary f)%float = true.

(** The [customer_data] dictionary sent to [/predict]. *)
Definition customer_data (f : form) : CustomerFeatures :=
  {| CreditScore := credit_score f;
     Age := age f;
     Tenure := tenure f;
     Balance := balance f;
     NumOfProducts := num_products f;
     HasCrCard := if has_cr_card f then 1 else 0;
     IsActiveMember := if is_active_member f then 1 else 0;
     EstimatedSalary := estimated_salary f;
     Geography_Germany := if bool_decide (geography f = "Allemagne") then 1 else 0;
     Geography_Spain := if bool_decide (geography f = "Espagne") then 1 else 0 |}.

(** ** Further example inputs *)

(** The example files again with another label column, other values in the
    columns found in one file only, and missing cells elsewhere. *)
Definition alternative_reference : frame :=
  [("CreditScore", [300; 850]%float);
   ("Age", [30; nan; 40; 50; 60]%float);
   ("Balance", [0; 1000; 2000; 3000; nan; nan]%float);
   ("Exited", [1; 1; 1; 1]%float)].

Definition alternative_production : frame :=
  [("Age", [nan; 61; 62; 63; 64; 65; 66; 67; 68]%float);
   ("Balance", [0; 1000; 2000; nan; 3000]%float);
   ("Exited", []%float);
   ("Geography_Spain", [1]%float)].

Definition alternative_world : world :=
  world_of {[ "data/bank_churn.csv" := alternative_reference;
              "data/production_data.csv" := alternative_production ]} ∅ true.

(** Files that have only the label column in common. *)
Definition disjoint_world : world :=
  world_of {[ "data/bank_churn.csv" :=
                [("Age", [30; 40]%float); ("Exited", [0; 1]%float)];
              "data/production_data.csv" :=
                [("Tenure", [1; 2]%float); ("Exited", [0; 0]%float)] ]} ∅ true.

Definition check_run (t : float) (w : world) : response * world :=
  check_drift demo_ks t w.

Definition the_analyzed (r : response) : nat :=
  match r with
  | success n _ _ => n
  | HTTPException _ _ => 0
  end.

Definition the_drifted (r : response) : nat :=
  match r with
  | success _ d _ => d
  | HTTPException _ _ => 0
  end.

(** A desk on which nothing has been drawn yet. *)
Definition desk_of (w : world) : desk := {| filesystem := w; images := ∅ |}.

(** A stand-in for a loaded model: it refuses a row that holds NaN and
    otherwise rates customers older than 50 at 0.8 and the others at
    0.2. *)
Definition demo_model : classifier := λ row,
  if existsb PrimFloat.is_nan row
  then Raise (ValueError "Input contains NaN.")
  else match row !! 1 with
       | Some age => Ok (if (50 <? age)%float then 0.8 else 0.2)%float
       | None => Raise (ValueError "Found array with 0 feature(s)")
       end.

(** The customer used by the API tests. *)
Definition test_customer : CustomerFeatures :=
  {| CreditScore := 650; Age := 35; Tenure := 5; Balance := 50000;
     NumOfProducts := 2; HasCrCard := 1; IsActiveMember := 1;
     EstimatedSalary := 75000; Geography_Germany := 0; Geography_Spain := 1 |}.

Definition older_customer : CustomerFeatures :=
  {| CreditScore := 700; Age := 61; Tenure := 9; Balance := 0;
     NumOfProducts := 1; HasCrCard := 0; IsActiveMember := 0;
     EstimatedSalary := 30000; Geography_Germany := 1; Geography_Spain := 0 |}.

Definition unreadable_customer : CustomerFeatures :=
  {| CreditScore := 700; Age := 61; Tenure := 9; Balance := nan;
     NumOfProducts := 1; HasCrCard := 0; IsActiveMember := 0;
     EstimatedSalary := 30000; Geography_Germany := 1; Geography_Spain := 0 |}.

Definition the_body {A} (default : A) (r : reply A) : A :=
  match r with
  | Respond body => body
  | Abort _ _ => default
  end.

(** The form as it opens. *)
Definition default_form : form :=
  {| credit_score := 650; age := 35; tenure := 5; geography := "France";
     balance := 50000; num_products := 2; estimated_salary := 75000;
     has_cr_card := true; is_active_member := true |}.

(** * Properties *)

(** ** The order on floats

    [<?] and [<=?] on binary64 values are specified by [SFcompare] on their
    decoded form; the facts below are what the classifier and the risk bands
    need of them. *)

Module FloatOrder.

Ltac split_comparisons :=
  repeat match goal with
  | |- context [ (?a ?= ?b)%Z ] => destruct (Z.compare_spec a b)
  | H : context [ (?a ?= ?b)%Z ] |- _ => destruct (Z.compare_spec a b)
  | |- context [ Pos.compare_cont Eq ?a ?b ] =>
      change (Pos.compare_cont Eq a b) with (Pos.compare a b);
      destruct (Pos.compare_spec a b)
  | H : context [ Pos.compare_cont Eq ?a ?b ] |- _ =>
      change (Pos.compare_cont Eq a b) with (Pos.compare a b) in H;
      destruct (Pos.compare_spec a b)
  end.

Ltac by_shape x y z :=
  destruct x as [[]|[]| |[] ? ?], y as [[]|[]| |[] ? ?], z as [[]|[]| |[] ? ?];
  simpl; try discriminate; try reflexivity;
  split_comparisons; simpl; try discriminate; try reflexivity; intros; lia.

Lemma SFltb_trans x y z :
  SFltb x y = true → SFltb y z = true → SFltb x z = true.
Proof. unfold SFltb. by_shape x y z. Qed.

Lemma SFleb_ltb_trans x y z :
  SFleb x y = true → SFltb y z = true → SFltb x z = true.
Proof. unfold SFltb, SFleb. by_shape x y z. Qed.

Lemma ltb_trans (x y z : float) :
  (x <? y)%float = true → (y <? z)%float = true → (x <? z)%float = true.
Proof. rewrite !ltb_spec. apply SFltb_trans. Qed.

Lemma leb_ltb_trans (x y z : float) :
  (x <=? y)%float = true → (y <? z)%float = true → (x <? z)%float = true.
Proof. rewrite leb_spec, !ltb_spec. apply SFleb_ltb_trans. Qed.

(** [a <= x] excludes [x < b] as soon as [a < b] fails. *)
Lemma leb_not_ltb (a b x : float) :
  (a <? b)%float = false → (a <=? x)%float = true → (x <? b)%float = false.
Proof.
  intros Hab Hax. destruct (x <? b)%float eqn:Hxb; [|done].
  by rewrite (leb_ltb_trans a x b) in Hab.
Qed.

(** [x < b] excludes [a < x] as soon as [a < b] fails. *)
Lemma ltb_not_ltb (a b x : float) :
  (a <? b)%float = false → (x <? b)%float = true → (a <? x)%float = false.
Proof.
  intros Hab Hxb. destruct (a <? x)%float eqn:Hax; [|done].
  by rewrite (ltb_trans a x b) in Hab.
Qed.

End FloatOrder.

(** ** Running [detect_drift] *)

Section DetectDriftFacts.

Variable ks_2samp : series → series → outcome (float * float).

Lemma drift_loop_cons col cols ref prod t acc :
  drift_loop ks_2samp (col :: cols) ref prod t acc =
    if retained prod col then
      try! e := compare_column ks_2samp ref prod t col in
      drift_loop ks_2samp cols ref prod t (<[col := e]> acc)
    else drift_loop ks_2samp cols ref prod t acc.
Proof.
  unfold retained, compare_column. simpl.
  destruct (_ && _); [|done].
  destruct (frame_get ref col); [|done]. simpl.
  destruct (frame_get prod col); [|done]. simpl.
  by destruct (ks_2samp _ _) as [[stat p]|].
Qed.

Lemma retained_spec prod col :
  retained prod col = true ↔ col ≠ "Exited" ∧ col ∈ columns prod.
Proof.
  unfold retained. rewrite andb_true_iff, !bool_decide_eq_true. done.
Qed.

(** Every entry of the result is either one the loop was started with or
    the one built for its column. *)
Lemma drift_loop_lookup cols ref prod t acc rs f r :
  drift_loop ks_2samp cols ref prod t acc = Ok rs →
  rs !! f = Some r →
  (f ∈ cols ∧ retained prod f = true ∧ compare_column ks_2samp ref prod t f = Ok r)
  ∨ acc !! f = Some r.
Proof.
  revert acc. induction cols as [|col cols IH]; intros acc Hrun Hf.
  - simpl in Hrun. injection Hrun as <-. by right.
  - rewrite drift_loop_cons in Hrun.
    destruct (retained prod col) eqn:Hret.
    + destruct (compare_column ks_2samp ref prod t col) as [e|] eqn:He; [|done].
      simpl in Hrun.
      destruct (IH _ Hrun Hf) as [(Hin & ? & ?)|Hacc].
      * left. split; [by apply elem_of_cons; right | done].
      * destruct (decide (col = f)) as [->|Hne].
        -- rewrite lookup_insert_eq in Hacc. injection Hacc as <-.
           left. split; [by apply elem_of_cons; left | done].
        -- rewrite lookup_insert_ne in Hacc by done. by right.
    + destruct (IH _ Hrun Hf) as [(Hin & ? & ?)|Hacc]; [|by right].
      left. split; [by apply elem_of_cons; right | done].
Qed.

(** The keys of the result. *)
Lemma drift_loop_dom cols ref prod t acc rs :
  drift_loop ks_2samp cols ref prod t acc = Ok rs →
  dom rs = dom acc ∪ (list_to_set cols ∩ list_to_set (columns prod)) ∖ {["Exited"]}.
Proof.
  revert acc. induction cols as [|col cols IH]; intros acc Hrun.
  - simpl in Hrun. injection Hrun as <-. set_solver.
  - rewrite drift_loop_cons in Hrun.
    destruct (retained prod col) eqn:Hret.
    + destruct (compare_column ks_2samp ref prod t col) as [e|] eqn:He; [|done].
      simpl in Hrun. rewrite (IH _ Hrun), dom_insert_L.
      apply retained_spec in Hret as [? ?]. set_solver.
    + rewrite (IH _ Hrun).
      assert (¬ (col ≠ "Exited" ∧ col ∈ columns prod)) as Hn.
      { rewrite <- retained_spec. by rewrite Hret. }
      destruct (decide (col = "Exited")) as [->|?]; set_solver.
Qed.

(** The loop goes through exactly when every retained column compares. *)
Lemma drift_loop_Ok cols ref prod t acc :
  (∀ col, col ∈ cols → retained prod col = true →
     ∃ e, compare_column ks_2samp ref prod t col = Ok e) →
  ∃ rs, drift_loop ks_2samp cols ref prod t acc = Ok rs.
Proof.
  revert acc. induction cols as [|col cols IH]; intros acc Hall.
  - by eexists.
  - rewrite drift_loop_cons.
    destruct (retained prod col) eqn:Hret.
    + destruct (Hall col) as [e ->]; [by left | done |]. simpl.
      apply IH. intros c Hc. apply Hall. by right.
    + apply IH. intros c Hc. apply Hall. by right.
Qed.

Lemma drift_loop_Raise cols ref prod t acc col e :
  col ∈ cols → retained prod col = true →
  compare_column ks_2samp ref prod t col = Raise e →
  ∃ e', drift_loop ks_2samp cols ref prod t acc = Raise e'.
Proof.
  revert acc. induction cols as [|c cols IH]; intros acc Hin Hret He.
  - by apply elem_of_nil in Hin.
  - rewrite drift_loop_cons.
    apply elem_of_cons in Hin as [<-|Hin].
    + rewrite Hret, He. by eexists.
    + destruct (retained prod c); [|by eapply IH].
      destruct (compare_column ks_2samp ref prod t c); [|by eexists].
      simpl. by eapply IH.
Qed.

(** Whether a column compares does not depend on the threshold. *)
Lemma compare_column_threshold ref prod t1 t2 col e :
  compare_column ks_2samp ref prod t1 col = Ok e →
  compare_column ks_2samp ref prod t2 col =
    Ok {| p_value := p_value e; statistic := statistic e;
          drift_detected := (p_value e <? t2)%float; type := type e |}.
Proof.
  unfold compare_column.
  destruct (frame_get ref col); [|done]. simpl.
  destruct (frame_get prod col); [|done]. simpl.
  destruct (ks_2samp _ _) as [[stat p]|]; [|done]. simpl.
  by intros [= <-].
Qed.

Lemma compare_column_inv ref prod t col e :
  compare_column ks_2samp ref prod t col = Ok e →
  ∃ r q, frame_get ref col = Ok r ∧ frame_get prod col = Ok q ∧
    ks_2samp (dropna r) (dropna q) = Ok (statistic e, p_value e) ∧
    drift_detected e = (p_value e <? t)%float ∧ type e = "numerical".
Proof.
  unfold compare_column.
  destruct (frame_get ref col) as [r|]; [|done]. simpl.
  destruct (frame_get prod col) as [q|]; [|done]. simpl.
  destruct (ks_2samp _ _) as [[stat p]|] eqn:Hks; [|done]. simpl.
  intros [= <-]. by exists r, q.
Qed.

End DetectDriftFacts.

Section DetectDriftRuns.

Variable ks_2samp : series → series → outcome (float * float).

Lemma makedirs_preserves d w :
  csv_files (makedirs d w).2 = csv_files w ∧
  clock (makedirs d w).2 = clock w ∧
  artifacts (makedirs d w).2 = artifacts w ∧
  telemetry (makedirs d w).2 = telemetry w.
Proof.
  unfold makedirs. destruct (directories w !! d); [done|].
  by destruct (may_create_directories w).
Qed.


Lemma json_dump_preserves dir path rs w :
  csv_files (json_dump dir path rs w).2 = csv_files w ∧
  telemetry (json_dump dir path rs w).2 = telemetry w.
Proof. unfold json_dump. by destruct (directories w !! dir) as [[]|]. Qed.

Lemma json_dump_artifacts dir path rs w :
  artifacts (json_dump dir path rs w).2 =
    match (json_dump dir path rs w).1 with
    | Ok _ => <[path := rs]> (artifacts w)
    | Raise _ => artifacts w
    end.
Proof. unfold json_dump. by destruct (directories w !! dir) as [[]|]. Qed.

(** [detect_drift], step by step. *)
Lemma detect_drift_run rf pf t out w :
  detect_drift ks_2samp rf pf t out w =
    let w1 := (makedirs out w).2 in
    match (makedirs out w).1 with
    | Raise e => (Raise e, w1)
    | Ok _ =>
        match csv_files w !! rf with
        | None => (Raise (FileNotFoundError rf), w1)
        | Some ref =>
            match csv_files w !! pf with
            | None => (Raise (FileNotFoundError pf), w1)
            | Some prod =>
                match drift_loop ks_2samp (columns ref) ref prod t ∅ with
                | Raise e => (Raise e, w1)
                | Ok rs =>
                    let d := json_dump out (report_path out (clock w)) rs w1 in
                    match d.1 with
                    | Ok _ => (Ok rs, d.2)
                    | Raise e => (Raise e, d.2)
                    end
                end
            end
        end
    end.
Proof.
  destruct (makedirs_preserves out w) as (Hcsv & Hclock & _).
  unfold detect_drift, bind, read_csv, lift, strftime_now, ret. simpl.
  destruct (makedirs out w) as [[[]|e] w1]; [|done]. simpl in *.
  rewrite Hcsv.
  destruct (csv_files w !! rf) as [ref|]; [|done].
  rewrite Hcsv.
  destruct (csv_files w !! pf) as [prod|]; [|done].
  destruct (drift_loop _ _ _ _ _ _) as [rs|]; [|done].
  rewrite Hclock.
  by destruct (json_dump _ _ _ _) as [[[]|] ?].
Qed.

(** A successful run read both files, went through the loop and wrote
    the artifact. *)
Lemma detect_drift_Ok rf pf t out w rs w' :
  detect_drift ks_2samp rf pf t out w = (Ok rs, w') →
  ∃ ref prod,
    csv_files w !! rf = Some ref ∧ csv_files w !! pf = Some prod ∧
    drift_loop ks_2samp (columns ref) ref prod t ∅ = Ok rs ∧
    (makedirs out w).1 = Ok () ∧
    (json_dump out (report_path out (clock w)) rs (makedirs out w).2).1 = Ok () ∧
    w' = (json_dump out (report_path out (clock w)) rs (makedirs out w).2).2.
Proof.
  rewrite detect_drift_run. cbv zeta.
  destruct ((makedirs out w).1) as [[]|]; [|done].
  destruct (csv_files w !! rf) as [ref|]; [|done].
  destruct (csv_files w !! pf) as [prod|]; [|done].
  destruct (drift_loop _ _ _ _ _ _) as [rs'|] eqn:Hloop; [|done].
  destruct ((json_dump _ _ _ _).1) as [[]|] eqn:Hd; [|done].
  intros [= Hrs Hw]. subst rs' w'. by exists ref, prod.
Qed.

(** The check returns results as soon as the output directory is (or
    becomes) writable, both files exist and every compared column compares. *)
Lemma detect_drift_succeeds rf pf t out w ref prod :
  directories w !! out = Some true
    ∨ (directories w !! out = None ∧ may_create_directories w = true) →
  csv_files w !! rf = Some ref →
  csv_files w !! pf = Some prod →
  (∀ col, col ∈ columns ref → retained prod col = true →
     ∃ e, compare_column ks_2samp ref prod t col = Ok e) →
  ∃ rs w', detect_drift ks_2samp rf pf t out w = (Ok rs, w').
Proof.
  intros Hdir Href Hprod Hall.
  destruct (drift_loop_Ok ks_2samp (columns ref) ref prod t ∅ Hall) as [rs Hrs].
  exists rs. eexists. rewrite detect_drift_run. cbv zeta.
  rewrite Href, Hprod, Hrs.
  assert ((makedirs out w).1 = Ok () ∧
          directories (makedirs out w).2 !! out = Some true) as [-> Hw].
  { unfold makedirs. destruct Hdir as [H|[H Hc]]; rewrite H; [done|].
    rewrite Hc. simpl. by rewrite lookup_insert_eq. }
  unfold json_dump. by rewrite Hw.
Qed.

Lemma detect_drift_entry rf pf t out w rs w' f r :
  detect_drift ks_2samp rf pf t out w = (Ok rs, w') →
  rs !! f = Some r →
  ∃ ref prod,
    csv_files w !! rf = Some ref ∧ csv_files w !! pf = Some prod ∧
    f ∈ columns ref ∧ retained prod f = true ∧
    compare_column ks_2samp ref prod t f = Ok r.
Proof.
  intros (ref & prod & Href & Hprod & Hloop & _)%detect_drift_Ok Hf.
  exists ref, prod. split_and!; try done;
    by destruct (drift_loop_lookup _ _ _ _ _ _ _ _ _ Hloop Hf)
      as [(? & ? & ?)|?].
Qed.

End DetectDriftRuns.

(** ** Classification *)

(** C1. In the results of a drift check run with threshold [t], every
    feature's [drift_detected] flag equals [p_value < t]: it is computed
    when the entry is created, from the p-value and the threshold of the
    call only, and the entry persisted in the artifact carries the same
    flag. *)
Theorem drift_flag_is_threshold_test
    (ks_2samp : series → series → outcome (float * float))
    (reference_file production_file : string) (t : float) (output_dir : string)
    (w w' : world) (results : gmap string FeatureDriftResult)
    (feature : string) (r : FeatureDriftResult) :
  detect_drift ks_2samp reference_file production_file t output_dir w
    = (Ok results, w') →
  results !! feature = Some r →
  drift_detected r = (p_value r <? t)%float ∧
  artifacts w' !! report_path output_dir (clock w) = Some results.
Proof.
  intros Hrun Hf. split.
  - destruct (detect_drift_entry _ _ _ _ _ _ _ _ _ _ Hrun Hf)
      as (ref & prod & _ & _ & _ & _ & He).
    by apply compare_column_inv in He as (? & ? & _ & _ & _ & ? & _).
  - apply detect_drift_Ok in Hrun as (? & ? & _ & _ & _ & _ & Hd & ->).
    rewrite json_dump_artifacts, Hd. apply lookup_insert_eq.
Qed.

(** C10. Every entry of the results has the constant ["numerical"] in its
    [type] field, whatever the column holds. *)
Theorem type_is_numerical
    (ks_2samp : series → series → outcome (float * float))
    (reference_file production_file : string) (t : float) (output_dir : string)
    (w w' : world) (results : gmap string FeatureDriftResult)
    (feature : string) (r : FeatureDriftResult) :
  detect_drift ks_2samp reference_file production_file t output_dir w
    = (Ok results, w') →
  results !! feature = Some r →
  type r = "numerical".
Proof.
  intros Hrun Hf.
  destruct (detect_drift_entry _ _ _ _ _ _ _ _ _ _ Hrun Hf)
    as (ref & prod & _ & _ & _ & _ & He).
  by apply compare_column_inv in He as (? & ? & _ & _ & _ & _ & ?).
Qed.

(** C5. The feature names of the results are exactly the column names
    present in both datasets, the label column ["Exited"] excluded. *)
Theorem results_are_shared_columns
    (ks_2samp : series → series → outcome (float * float))
    (reference_file production_file : string) (t : float) (output_dir : string)
    (w w' : world) (ref prod : frame) (results : gmap string FeatureDriftResult) :
  csv_files w !! reference_file = Some ref →
  csv_files w !! production_file = Some prod →
  detect_drift ks_2samp reference_file production_file t output_dir w
    = (Ok results, w') →
  dom results =
    (list_to_set (columns ref) ∩ list_to_set (columns prod)) ∖ {["Exited"]}.
Proof.
  intros Href Hprod (ref' & prod' & Href' & Hprod' & Hloop & _)%detect_drift_Ok.
  rewrite Href in Href'. rewrite Hprod in Hprod'.
  injection Href' as <-. injection Hprod' as <-.
  rewrite (drift_loop_dom _ _ _ _ _ _ _ Hloop), dom_empty_L. set_solver.
Qed.

Lemma elem_of_flagged results f :
  f ∈ flagged results ↔ ∃ r, results !! f = Some r ∧ drift_detected r = true.
Proof.
  unfold flagged. rewrite elem_of_dom. unfold is_Some.
  by setoid_rewrite map_lookup_filter_Some.
Qed.

Section Monotonicity.

Variable ks_2samp : series → series → outcome (float * float).

Lemma drift_loop_Ok_inv cols ref prod t acc rs col :
  drift_loop ks_2samp cols ref prod t acc = Ok rs →
  col ∈ cols → retained prod col = true →
  ∃ e, compare_column ks_2samp ref prod t col = Ok e.
Proof.
  intros Hrun Hin Hret.
  destruct (compare_column ks_2samp ref prod t col) as [e|e] eqn:He; [by eexists|].
  destruct (drift_loop_Raise ks_2samp cols ref prod t acc col e Hin Hret He)
    as [e' He'].
  by rewrite He' in Hrun.
Qed.

(** Whether the loop goes through does not depend on the threshold. *)
Lemma drift_loop_threshold cols ref prod t1 t2 rs1 :
  drift_loop ks_2samp cols ref prod t1 ∅ = Ok rs1 →
  ∃ rs2, drift_loop ks_2samp cols ref prod t2 ∅ = Ok rs2.
Proof.
  intros Hrun. apply drift_loop_Ok. intros col Hin Hret.
  destruct (drift_loop_Ok_inv _ _ _ _ _ _ _ Hrun Hin Hret) as [e He].
  rewrite (compare_column_threshold _ _ _ t1 t2 _ _ He). by eexists.
Qed.

Lemma json_dump_outcome dir path rs rs' w :
  (json_dump dir path rs w).1 = (json_dump dir path rs' w).1.
Proof. unfold json_dump. by destruct (directories w !! dir) as [[]|]. Qed.

Lemma flagged_mono cols ref prod t1 t2 rs1 rs2 :
  (t1 <? t2)%float = true →
  drift_loop ks_2samp cols ref prod t1 ∅ = Ok rs1 →
  drift_loop ks_2samp cols ref prod t2 ∅ = Ok rs2 →
  flagged rs1 ⊆ flagged rs2.
Proof.
  intros Ht H1 H2 f (r1 & Hf1 & Hflag)%elem_of_flagged.
  apply elem_of_flagged.
  assert (f ∈ dom rs2) as [r2 Hf2]%elem_of_dom.
  { rewrite (drift_loop_dom _ _ _ _ _ _ _ H2),
      <- (drift_loop_dom _ _ _ _ _ _ _ H1).
    apply elem_of_dom. by eexists. }
  exists r2. split; [done|].
  destruct (drift_loop_lookup _ _ _ _ _ _ _ _ _ H1 Hf1)
    as [(_ & _ & He1)|Hacc]; [|by rewrite lookup_empty in Hacc].
  destruct (drift_loop_lookup _ _ _ _ _ _ _ _ _ H2 Hf2)
    as [(_ & _ & He2)|Hacc]; [|by rewrite lookup_empty in Hacc].
  rewrite (compare_column_threshold _ _ _ t1 t2 _ _ He1) in He2.
  injection He2 as <-. simpl.
  apply compare_column_inv in He1 as (_ & _ & _ & _ & _ & Hd & _).
  rewrite Hd in Hflag. by apply (FloatOrder.ltb_trans _ t1).
Qed.

End Monotonicity.

(** C7. For thresholds [t1 < t2] and the same inputs, a check that
    succeeds with [t1] succeeds with [t2] too, and every feature it flags
    with [t1] is flagged with [t2]. *)
Theorem threshold_monotonicity
    (ks_2samp : series → series → outcome (float * float))
    (reference_file production_file : string) (t1 t2 : float)
    (output_dir : string) (w w1 : world)
    (results1 : gmap string FeatureDriftResult) :
  (t1 <? t2)%float = true →
  detect_drift ks_2samp reference_file production_file t1 output_dir w
    = (Ok results1, w1) →
  ∃ results2 w2,
    detect_drift ks_2samp reference_file production_file t2 output_dir w
      = (Ok results2, w2) ∧
    flagged results1 ⊆ flagged results2.
Proof.
  intros Ht (ref & prod & Href & Hprod & Hloop & Hmk & Hd & _)%detect_drift_Ok.
  destruct (drift_loop_threshold _ _ _ _ t1 t2 _ Hloop) as [results2 Hloop2].
  exists results2. eexists. split.
  - rewrite detect_drift_run. cbv zeta.
    rewrite Hmk, Href, Hprod, Hloop2.
    by rewrite (json_dump_outcome _ _ results2 results1), Hd.
  - by eapply flagged_mono.
Qed.

(** ** The aggregate evaluation *)

Lemma sum_ones {A} (l : list A) : sum_list ((λ _, 1) <$> l) = length l.
Proof. induction l as [|x l IH]; simpl; [done|]. f_equal. exact IH. Qed.

Lemma count_drifted_length results :
  count_drifted results =
    length (List.filter drift_detected (map_to_list results).*2).
Proof. apply sum_ones. Qed.

Lemma count_drifted_le results : count_drifted results ≤ size results.
Proof.
  rewrite count_drifted_length.
  etrans; [apply List.filter_length_le|].
  by rewrite length_fmap, length_map_to_list.
Qed.

Lemma log_features_run items w :
  log_features items w = (Ok (), with_telemetry w (feature_records items)).
Proof.
  revert w. induction items as [|[f d] items IH]; intros w.
  - unfold with_telemetry, feature_records. simpl. unfold ret.
    rewrite app_nil_r. by destruct w.
  - simpl. unfold feature_records. simpl.
    destruct (drift_detected d); simpl.
    + unfold bind, log. rewrite IH. unfold with_telemetry. simpl.
      by rewrite <- app_assoc.
    + apply IH.
Qed.

Lemma drift_percentage_total results :
  drift_percentage results =
    Ok (if decide (size results = 0) then Py.Int 0
        else Py.Float
               (Py.round (Py.float_of_nat (count_drifted results)
                          / Py.float_of_nat (size results) * 100)%float 2)).
Proof.
  unfold drift_percentage, Py.int_truediv.
  destruct (decide (size results = 0)) as [->|Hne]; [done|].
  rewrite bool_decide_eq_true_2 by done.
  by destruct (size results).
Qed.

Lemma log_drift_to_insights_run results w pct :
  drift_percentage results = Ok pct →
  log_drift_to_insights results w =
    (Ok (), with_telemetry w
              (drift_detection pct (risk_of pct)
                 :: feature_records (map_to_list results))).
Proof.
  intros Hp. unfold log_drift_to_insights, bind, lift. rewrite Hp.
  unfold log. rewrite log_features_run. unfold with_telemetry. simpl.
  by rewrite <- app_assoc.
Qed.

Lemma risk_bands pct :
  (Py.num_ltb pct 20 = true → risk_of pct = LOW) ∧
  (Py.num_geb pct 20 = true → Py.num_ltb pct 50 = true → risk_of pct = MEDIUM) ∧
  (Py.num_geb pct 50 = true → risk_of pct = HIGH).
Proof.
  unfold risk_of. split_and!.
  - by intros ->.
  - intros H20 ->.
    destruct pct as [z|f]; simpl in *.
    + by rewrite (proj2 (Z.ltb_ge _ _)) by lia.
    + by rewrite (FloatOrder.leb_not_ltb (Py.float_of_Z 20) (Py.float_of_Z 20) f).
  - intros H50.
    destruct pct as [z|f]; simpl in *.
    + by rewrite !(proj2 (Z.ltb_ge _ _)) by lia.
    + by rewrite (FloatOrder.leb_not_ltb (Py.float_of_Z 50) (Py.float_of_Z 20) f),
        (FloatOrder.leb_not_ltb (Py.float_of_Z 50) (Py.float_of_Z 50) f).
Qed.

(** C2. The aggregate evaluator counts the flagged entries, computes
    [drift_percentage = round(drifted / total * 100, 2)] (the integer [0]
    when there is no entry), and maps it to [LOW] below 20, to [MEDIUM] from
    20 and below 50, and to [HIGH] from 50; 19.99 is [LOW], 20.0 and 49.99
    are [MEDIUM], 50.0 is [HIGH].  The percentage and its band are what the
    [drift_detection] record carries. *)
Theorem aggregate_risk_evaluation (results : gmap string FeatureDriftResult) :
  count_drifted results
    = length (List.filter drift_detected (map_to_list results).*2) ∧
  count_drifted results ≤ size results ∧
  drift_percentage results =
    Ok (if decide (size results = 0) then Py.Int 0
        else Py.Float
               (Py.round (Py.float_of_nat (count_drifted results)
                          / Py.float_of_nat (size results) * 100)%float 2)) ∧
  (∀ pct,
     (Py.num_ltb pct 20 = true → risk_of pct = LOW) ∧
     (Py.num_geb pct 20 = true → Py.num_ltb pct 50 = true →
        risk_of pct = MEDIUM) ∧
     (Py.num_geb pct 50 = true → risk_of pct = HIGH)) ∧
  risk_of (Py.Float 19.99) = LOW ∧
  risk_of (Py.Float 20.0) = MEDIUM ∧
  risk_of (Py.Float 49.99) = MEDIUM ∧
  risk_of (Py.Float 50.0) = HIGH ∧
  (∀ w, ∃ pct,
     drift_percentage results = Ok pct ∧
     log_drift_to_insights results w =
       (Ok (), with_telemetry w
                 (drift_detection pct (risk_of pct)
                    :: feature_records (map_to_list results)))).
Proof.
  split_and!; try reflexivity.
  - apply count_drifted_length.
  - apply count_drifted_le.
  - apply drift_percentage_total.
  - apply risk_bands.
  - intros w. eexists. split; [apply drift_percentage_total|].
    apply log_drift_to_insights_run, drift_percentage_total.
Qed.

(** C8. With an empty results mapping the evaluation divides nothing: the
    percentage is the integer [0], the band is [LOW], the only record logged
    is that assessment; and on no results mapping at all does the
    percentage raise a division error. *)
Theorem zero_feature_safety :
  size (∅ : gmap string FeatureDriftResult) = 0 ∧
  drift_percentage ∅ = Ok (Py.Int 0) ∧
  risk_of (Py.Int 0) = LOW ∧
  (∀ w, log_drift_to_insights ∅ w
        = (Ok (), with_telemetry w [drift_detection (Py.Int 0) LOW])) ∧
  (∀ results : gmap string FeatureDriftResult,
     size results = 0 → results = ∅) ∧
  (∀ results, drift_percentage results ≠ Raise ZeroDivisionError).
Proof.
  split_and!; try reflexivity.
  - intros results. apply map_size_empty_iff.
  - intros results. by rewrite drift_percentage_total.
Qed.

(** ** Identical samples *)

Module KSFacts.







(** *** Floats and the numbers they stand for *)







(** *** The series of the Kolmogorov distribution *)

Lemma exp_le (a b : R) : (a <= b)%R → (exp a <= exp b)%R.
Proof.
  intros [Hlt| ->]; [|apply Rle_refl]. left. by apply exp_increasing.
Qed.

Lemma amplitude_decreasing (x : R) : Un_decreasing (KS.kolmogorov_amplitude x).
Proof.
  intros n. unfold KS.kolmogorov_amplitude. apply exp_le.
  rewrite (S_INR (S n)). pose proof (pos_INR (S n)). nra.
Qed.

Lemma exp_neg_lt (y : R) : (0 < y)%R → (exp (- y) < / y)%R.
Proof.
  intros Hy. rewrite exp_Ropp.
  apply Rinv_lt_contravar.
  - apply Rmult_lt_0_compat; [done | apply exp_pos].
  - assert (y ≠ 0%R) as Hne by lra. pose proof (exp_ineq1 y Hne). lra.
Qed.

Lemma amplitude_vanishes (x : R) :
  x ≠ 0%R → Un_cv (KS.kolmogorov_amplitude x) 0.
Proof.
  intros Hx eps Heps.
  assert (0 < x * x)%R as Hxx by nra.
  destruct (archimed_cor1 (eps * (2 * (x * x)))) as (N & HN & HN0).
  { apply Rmult_lt_0_compat; lra. }
  exists N. intros n Hn. unfold R_dist, KS.kolmogorov_amplitude.
  rewrite Rminus_0_r, Rabs_pos_eq by (left; apply exp_pos).
  assert (0 < INR N)%R as HNpos by (apply lt_0_INR; lia).
  assert (INR N <= INR (S n))%R as Hle by (apply le_INR; lia).
  set (m := INR (S n)) in *.
  assert (0 < m)%R as Hm by lra.
  assert (m <= m * m)%R as Hmm.
  { assert (1 <= m)%R by (apply (le_INR 1); lia). nra. }
  assert (0 < 2 * (m * m) * (x * x))%R as Hy.
  { apply Rmult_lt_0_compat; [|done]. nra. }
  eapply Rlt_trans; [apply (exp_neg_lt _ Hy)|].
  assert (/ (2 * (m * m) * (x * x)) <= / (INR N * (2 * (x * x))))%R as Hinv.
  { apply Rinv_le_contravar.
    - apply Rmult_lt_0_compat; lra.
    - rewrite (Rmult_comm 2 (m * m)), Rmult_assoc.
      apply Rmult_le_compat_r; lra. }
  eapply Rle_lt_trans; [exact Hinv|].
  rewrite Rinv_mult.
  assert (0 < / (2 * (x * x)))%R as Hi by (apply Rinv_0_lt_compat; lra).
  assert (/ INR N * / (2 * (x * x)) < eps * (2 * (x * x)) * / (2 * (x * x)))%R
    as Hlt by (apply Rmult_lt_compat_r; done).
  rewrite Rmult_assoc, Rinv_r, Rmult_1_r in Hlt by lra.
  exact Hlt.
Qed.

(** The series converges away from 0, as an alternating series whose terms
    decrease to 0. *)
Lemma kolmogorov_series_converges (x : R) :
  x ≠ 0%R → ∃ l, infinite_sum (KS.kolmogorov_term x) l.
Proof.
  intros Hx.
  destruct (alternated_series (KS.kolmogorov_amplitude x)
              (amplitude_decreasing x) (amplitude_vanishes x Hx)) as [l Hl].
  exists l. exact Hl.
Qed.

(** For [x > 0] the survival function is twice the sum of the series. *)
Lemma kolmogorov_sf_sum (x : R) :
  (0 < x)%R → infinite_sum (KS.kolmogorov_term x) (KS.kolmogorov_sf x / 2).
Proof.
  intros Hx. unfold KS.kolmogorov_sf.
  destruct (Rle_dec x 0) as [?|_]; [lra|].
  replace (2 * KS.series_sum (KS.kolmogorov_term x) / 2)%R
    with (KS.series_sum (KS.kolmogorov_term x)) by lra.
  unfold KS.series_sum. apply epsilon_spec, kolmogorov_series_converges. lra.
Qed.

(** The sum lies between its first two partial sums: the familiar bound
    [P(K >= x) <= 2 exp(-2 x^2)]. *)
Lemma kolmogorov_sf_bounds (x : R) :
  (0 < x)%R →
  (2 * (exp (- (2 * (x * x))) - exp (- (8 * (x * x)))) <= KS.kolmogorov_sf x
   <= 2 * exp (- (2 * (x * x))))%R.
Proof.
  intros Hx. pose proof (kolmogorov_sf_sum x Hx) as Hsum.
  assert (x ≠ 0%R) as Hne by lra.
  pose proof (alternated_series_ineq (KS.kolmogorov_amplitude x)
                (KS.kolmogorov_sf x / 2) 0 (amplitude_decreasing x)
                (amplitude_vanishes x Hne) Hsum) as [Hlo Hhi].
  simpl in Hlo, Hhi. unfold tg_alt, KS.kolmogorov_amplitude in Hlo, Hhi.
  simpl in Hlo, Hhi.
  replace (2 * ((1 + 1) * (1 + 1)) * (x * x))%R with (8 * (x * x))%R
    in Hlo by ring.
  replace (2 * (1 * 1) * (x * x))%R with (2 * (x * x))%R in Hlo, Hhi by ring.
  lra.
Qed.


Lemma sf_upper_bound_zero (n d : Q) :
  (d == 0)%Q → KS.sf_upper_bound n d = 1%float.
Proof.
  intros Hd. unfold KS.sf_upper_bound.
  assert (2 / (1 + 2 * n * d * d) == 2)%Q as Hb.
  { assert (1 + 2 * n * 0 * 0 == 1)%Q as H1 by ring.
    rewrite Hd, H1. reflexivity. }
  assert (Qle_bool 1 (2 / (1 + 2 * n * d * d)) = true) as ->.
  { apply Qle_bool_iff. rewrite Hb. discriminate. }
  reflexivity.
Qed.

End KSFacts.


(** ** Failures *)

Section Failures.

Variable ks_2samp : series → series → outcome (float * float).

Lemma frame_get_Ok (df : frame) (col : string) :
  col ∈ columns df → ∃ s, frame_get df col = Ok s.
Proof.
  induction df as [|[c s] df IH]; intros Hin; [by apply elem_of_nil in Hin|].
  simpl. case_bool_decide; [by eexists|].
  apply IH. by apply elem_of_cons in Hin as [->|?].
Qed.

(** An exception leaves the artifacts as they were. *)
Lemma detect_drift_Raise_artifacts rf pf t out w e w' :
  detect_drift ks_2samp rf pf t out w = (Raise e, w') →
  artifacts w' = artifacts w ∧ telemetry w' = telemetry w.
Proof.
  destruct (makedirs_preserves out w) as (_ & _ & Hart & Htel).
  rewrite detect_drift_run. cbv zeta.
  destruct ((makedirs out w).1) as [[]|]; [|by intros [= _ <-]].
  destruct (csv_files w !! rf) as [ref|]; [|by intros [= _ <-]].
  destruct (csv_files w !! pf) as [prod|]; [|by intros [= _ <-]].
  destruct (drift_loop _ _ _ _ _ _) as [rs|]; [|by intros [= _ <-]].
  pose proof (json_dump_artifacts out (report_path out (clock w)) rs
                (makedirs out w).2) as Hd.
  destruct (json_dump_preserves out (report_path out (clock w)) rs
              (makedirs out w).2) as [_ Hdt].
  destruct ((json_dump _ _ _ _).1) as [[]|]; [done|].
  intros [= _ <-]. by rewrite Hd, Hdt.
Qed.

Lemma detect_drift_loop_Raise rf pf t out w ref prod e :
  csv_files w !! rf = Some ref →
  csv_files w !! pf = Some prod →
  drift_loop ks_2samp (columns ref) ref prod t ∅ = Raise e →
  ∃ e' w', detect_drift ks_2samp rf pf t out w = (Raise e', w').
Proof.
  intros Href Hprod Hloop. rewrite detect_drift_run. cbv zeta.
  rewrite Href, Hprod, Hloop.
  destruct ((makedirs out w).1) as [[]|]; by eexists _, _.
Qed.

End Failures.

(** X18. [detect_drift] puts no guard of its own around a comparison.
    When [ks_2samp] raises for a column that is compared, the whole check
    raises, returns no results and writes no artifact; when [ks_2samp]
    returns for every compared column, the loop yields an entry for each
    shared column but the label.  Whether a feature with no value left
    stops the check is therefore the library's doing, not the loop's. *)
Theorem comparison_failure_aborts_check
    (ks_2samp : series → series → outcome (float * float))
    (reference_file production_file : string) (t : float) (output_dir : string)
    (w : world) (ref prod : frame) :
  csv_files w !! reference_file = Some ref →
  csv_files w !! production_file = Some prod →
  (∀ col sample_ref sample_prod e,
     col ∈ columns ref → col ≠ "Exited" → col ∈ columns prod →
     frame_get ref col = Ok sample_ref →
     frame_get prod col = Ok sample_prod →
     ks_2samp (dropna sample_ref) (dropna sample_prod) = Raise e →
     ∃ e' w',
       detect_drift ks_2samp reference_file production_file t output_dir w
         = (Raise e', w') ∧
       artifacts w' = artifacts w) ∧
  ((∀ col sample_ref sample_prod,
      col ∈ columns ref → col ≠ "Exited" → col ∈ columns prod →
      frame_get ref col = Ok sample_ref →
      frame_get prod col = Ok sample_prod →
      ∃ sp, ks_2samp (dropna sample_ref) (dropna sample_prod) = Ok sp) →
   ∃ results,
     drift_loop ks_2samp (columns ref) ref prod t ∅ = Ok results ∧
     dom results =
       (list_to_set (columns ref) ∩ list_to_set (columns prod)) ∖ {["Exited"]}).
Proof.
  intros Href Hprod. split.
  - intros col sr sp e Hin Hne Hinp Hsr Hsp Hks.
    assert (compare_column ks_2samp ref prod t col = Raise e) as He.
    { unfold compare_column. by rewrite Hsr, Hsp; simpl; rewrite Hks. }
    destruct (drift_loop_Raise ks_2samp (columns ref) ref prod t ∅ col e)
      as [e1 Hloop]; [done | by apply retained_spec | done |].
    destruct (detect_drift_loop_Raise ks_2samp _ _ t output_dir w _ _ _
                Href Hprod Hloop) as (e' & w' & Hrun).
    exists e', w'. split; [done|].
    by apply detect_drift_Raise_artifacts in Hrun as [? _].
  - intros Hall.
    destruct (drift_loop_Ok ks_2samp (columns ref) ref prod t ∅) as [rs Hrs].
    { intros col Hin [Hne Hinp]%retained_spec.
      destruct (frame_get_Ok ref col Hin) as [sr Hsr].
      destruct (frame_get_Ok prod col Hinp) as [sp Hsp].
      destruct (Hall col sr sp Hin Hne Hinp Hsr Hsp) as [r Hr].
      unfold compare_column. rewrite Hsr, Hsp. simpl. rewrite Hr. by eexists. }
    exists rs. split; [done|].
    rewrite (drift_loop_dom _ _ _ _ _ _ _ Hrs), dom_empty_L. set_solver.
Qed.



(** ** Example runs *)

Ltac run := vm_compute; reflexivity.
Ltac decided := apply (bool_decide_eq_true_1 _); vm_compute; reflexivity.


(** [round] rounds the binary value, half to even: 2.675 is stored below
    the tie and 0.125 is an exact tie. *)
Example round_examples :
  Py.round 2.675 2 = 2.67%float ∧ Py.round 0.125 2 = 0.12%float ∧
  Py.round 19.995 2 = 20%float ∧ Py.round 33.33333333333333 2 = 33.33%float.
Proof. split_and!; run. Qed.

(** The gap between [1,2,3] and [2,3,4,5] is largest at 3: 1 - 1/2. *)
Example ks_statistic_example :
  demo_ks [1; 2; 3]%float [2; 3; 4; 5]%float = Ok (0.5, 1)%float ∧
  demo_ks [1; 2; 3]%float [4; 5; 6]%float = Ok (1, 0.5)%float ∧
  demo_ks [3; 1; 2]%float [1; 2; 3]%float = Ok (0, 1)%float.
Proof. split_and!; run. Qed.

(** The check on the example files at threshold 0.5: [Age] has moved,
    [Balance] has not; one feature in two drifted is 50 percent, [HIGH]. *)
Example demo_check :
  (check_drift demo_ks 0.5 demo_world).1
    = success 2 1 (the_results (demo_run 0.5 demo_world).1) ∧
  flagged (the_results (demo_run 0.5 demo_world).1) = {["Age"]} ∧
  telemetry (check_drift demo_ks 0.5 demo_world).2
    = [drift_detection (Py.Float 50) HIGH;
       feature_drift "Age" 0.31578947368421051 1 "numerical"].
Proof. split_and!; run. Qed.

Lemma drift_flag_is_threshold_test_witness :
  ∃ r, the_results (demo_run 0.05 demo_world).1 !! "Age" = Some r ∧
       drift_detected r = (p_value r <? 0.05)%float.
Proof.
  eexists. split; [run|].
  apply (drift_flag_is_threshold_test demo_ks "data/bank_churn.csv"
           "data/production_data.csv" 0.05 default_output_dir demo_world
           (demo_run 0.05 demo_world).2
           (the_results (demo_run 0.05 demo_world).1) "Age"); run.
Defined.

Lemma type_is_numerical_witness :
  ∃ r, the_results (demo_run 0.05 demo_world).1 !! "Balance" = Some r ∧
       type r = "numerical".
Proof.
  eexists. split; [run|].
  apply (type_is_numerical demo_ks "data/bank_churn.csv"
           "data/production_data.csv" 0.05 default_output_dir demo_world
           (demo_run 0.05 demo_world).2
           (the_results (demo_run 0.05 demo_world).1) "Balance"); run.
Defined.

Lemma results_are_shared_columns_witness :
  dom (the_results (demo_run 0.05 demo_world).1) =
    (list_to_set (columns demo_reference)
       ∩ list_to_set (columns demo_production)) ∖ {["Exited"]}.
Proof.
  apply (results_are_shared_columns demo_ks "data/bank_churn.csv"
           "data/production_data.csv" 0.05 default_output_dir demo_world
           (demo_run 0.05 demo_world).2); run.
Defined.

Lemma threshold_monotonicity_witness :
  ∃ results2 w2,
    demo_run 0.5 demo_world = (Ok results2, w2) ∧
    flagged (the_results (demo_run 0.05 demo_world).1) ⊆ flagged results2.
Proof.
  apply (threshold_monotonicity demo_ks "data/bank_churn.csv"
           "data/production_data.csv" 0.05 0.5 default_output_dir demo_world
           (demo_run 0.05 demo_world).2); run.
Defined.


Lemma comparison_failure_aborts_check_witness :
  ∃ e' w',
    demo_run 0.05 degenerate_world = (Raise e', w') ∧
    artifacts w' = artifacts degenerate_world.
Proof.
  apply (proj1 (comparison_failure_aborts_check demo_ks "data/bank_churn.csv"
                  "data/production_data.csv" 0.05 default_output_dir
                  degenerate_world demo_reference degenerate_production
                  eq_refl eq_refl)
           "Balance" [0; 1000; 2000; 3000]%float [nan; nan; nan; nan]%float
           (ValueError "Data passed to ks_2samp must not be empty"));
    first [run | decided].
Defined.



(** What becomes of a feature with no value left is the comparator's
    doing.  The production file has an empty [Balance] column next to an
    [Age] column that compares without trouble.  With a comparator that
    rejects an empty sample the check stops at [Balance], returns no
    results (not even the entry of [Age]) and writes no artifact; with one
    that answers NaN the same check returns both features, [Balance] with
    a NaN p-value and no flag. *)
Example degenerate_sample_follows_comparator :
  frame_get degenerate_production "Balance" = Ok [nan; nan; nan; nan]%float ∧
  dropna [nan; nan; nan; nan]%float = [] ∧
  (demo_run 0.05 degenerate_world).1
    = Raise (ValueError "Data passed to ks_2samp must not be empty") ∧
  artifacts (demo_run 0.05 degenerate_world).2 = ∅ ∧
  dom (the_results (lenient_run 0.05 degenerate_world).1)
    = {["Age"; "Balance"]} ∧
  (∃ r, the_results (lenient_run 0.05 degenerate_world).1 !! "Balance" = Some r ∧
        PrimFloat.is_nan (p_value r) = true ∧ drift_detected r = false) ∧
  artifacts (lenient_run 0.05 degenerate_world).2
    !! "drift_reports/drift_20240101_120000.json"
    = Some (the_results (lenient_run 0.05 degenerate_world).1).
Proof.
  split_and!; [run | run | run | run | run | eexists; split_and!; run | run].
Qed.

(** ** Where the code departs from the specification *)



(** * Further properties of the drift check *)

Module FloatNaN.

Lemma SFeqb_refl_nan (x : spec_float) : SFeqb x x = false → x = S754_nan.
Proof.
  unfold SFeqb. destruct x as [[]|[]| |[] m e]; simpl; try done;
    by rewrite Z.compare_refl, Pos.compare_cont_refl.
Qed.

Lemma is_nan_spec (x : float) : PrimFloat.is_nan x = true → Prim2SF x = S754_nan.
Proof.
  unfold PrimFloat.is_nan. rewrite FloatAxioms.eqb_spec, negb_true_iff.
  apply SFeqb_refl_nan.
Qed.

Lemma ltb_nan_l (x y : float) : PrimFloat.is_nan x = true → (x <? y)%float = false.
Proof. intros Hx. by rewrite ltb_spec, (is_nan_spec x Hx). Qed.

Lemma ltb_nan_r (x y : float) : PrimFloat.is_nan y = true → (x <? y)%float = false.
Proof.
  intros Hy. rewrite ltb_spec, (is_nan_spec y Hy).
  unfold SFltb. by destruct (Prim2SF x) as [[]|[]| |[] ? ?].
Qed.

End FloatNaN.

Section DriftReportFacts.

Variable ks_2samp : series → series → outcome (float * float).

Lemma drift_loop_notin cols ref prod t acc rs f :
  drift_loop ks_2samp cols ref prod t acc = Ok rs →
  f ∉ cols → rs !! f = acc !! f.
Proof.
  revert acc. induction cols as [|col cols IH]; intros acc Hrun Hf.
  - simpl in Hrun. by injection Hrun as <-.
  - apply not_elem_of_cons in Hf as [Hne Hf].
    rewrite drift_loop_cons in Hrun.
    destruct (retained prod col).
    + destruct (compare_column ks_2samp ref prod t col) as [e|]; [|done].
      simpl in Hrun. rewrite (IH _ Hrun Hf). by apply lookup_insert_ne.
    + by apply IH.
Qed.

(** Every compared column has its entry in the result. *)
Lemma drift_loop_complete cols ref prod t acc rs f :
  drift_loop ks_2samp cols ref prod t acc = Ok rs →
  f ∈ cols → retained prod f = true →
  ∃ e, compare_column ks_2samp ref prod t f = Ok e ∧ rs !! f = Some e.
Proof.
  revert acc. induction cols as [|col cols IH]; intros acc Hrun Hin Hret.
  - by apply elem_of_nil in Hin.
  - rewrite drift_loop_cons in Hrun.
    destruct (decide (f ∈ cols)) as [Hrest|Hrest].
    + destruct (retained prod col); [|by eapply IH].
      destruct (compare_column ks_2samp ref prod t col); [|done].
      by eapply IH.
    + apply elem_of_cons in Hin as [->|?]; [|done].
      rewrite Hret in Hrun.
      destruct (compare_column ks_2samp ref prod t col) as [e|]; [|done].
      simpl in Hrun. exists e. split; [done|].
      rewrite (drift_loop_notin _ _ _ _ _ _ _ Hrun Hrest).
      apply lookup_insert_eq.
Qed.

Lemma compare_column_of_samples ref prod t col :
  compare_column ks_2samp ref prod t col =
    try! r := sample_of ref col in
    try! q := sample_of prod col in
    try! sp := ks_2samp r q in
    Ok {| p_value := sp.2;
          statistic := sp.1;
          drift_detected := (sp.2 <? t)%float;
          type := "numerical" |}.
Proof.
  unfold sample_of, compare_column.
  destruct (frame_get ref col); [|done]. simpl.
  by destruct (frame_get prod col).
Qed.

Lemma compare_column_samples ref prod ref' prod' t col :
  sample_of ref col = sample_of ref' col →
  sample_of prod col = sample_of prod' col →
  compare_column ks_2samp ref prod t col
    = compare_column ks_2samp ref' prod' t col.
Proof. intros Hr Hp. by rewrite !compare_column_of_samples, Hr, Hp. Qed.

Lemma retained_same prod prod' col :
  (∀ c, c ∈ columns prod ↔ c ∈ columns prod') →
  retained prod col = retained prod' col.
Proof.
  intros Hcols. unfold retained. f_equal. apply bool_decide_ext, Hcols.
Qed.

Lemma drift_loop_same_samples cols ref prod ref' prod' t acc :
  (∀ c, c ∈ columns prod ↔ c ∈ columns prod') →
  (∀ col, col ∈ cols → col ≠ "Exited" → col ∈ columns prod →
     sample_of ref col = sample_of ref' col ∧
     sample_of prod col = sample_of prod' col) →
  drift_loop ks_2samp cols ref prod t acc
    = drift_loop ks_2samp cols ref' prod' t acc.
Proof.
  intros Hcols. revert acc.
  induction cols as [|col cols IH]; intros acc Hsame; [done|].
  rewrite !drift_loop_cons, <- (retained_same prod prod' col Hcols).
  destruct (retained prod col) eqn:Hret.
  - apply retained_spec in Hret as [Hne Hin].
    destruct (Hsame col) as [Hr Hp]; [by left | done | done |].
    rewrite <- (compare_column_samples _ _ _ _ _ _ Hr Hp).
    destruct (compare_column ks_2samp ref prod t col); [|done]. simpl.
    apply IH. intros c Hc. apply Hsame. by right.
  - apply IH. intros c Hc. apply Hsame. by right.
Qed.

Lemma makedirs_same d w w' :
  directories w = directories w' →
  may_create_directories w = may_create_directories w' →
  (makedirs d w).1 = (makedirs d w').1 ∧
  directories (makedirs d w).2 = directories (makedirs d w').2.
Proof.
  intros Hd Hc. unfold makedirs. rewrite <- Hd, <- Hc.
  destruct (directories w !! d); [done|].
  destruct (may_create_directories w); simpl; [by rewrite Hd | done].
Qed.

Lemma json_dump_same dir path rs w w' :
  directories w = directories w' →
  (json_dump dir path rs w).1 = (json_dump dir path rs w').1.
Proof.
  intros Hd. unfold json_dump. rewrite <- Hd.
  by destruct (directories w !! dir) as [[]|].
Qed.

Lemma detect_drift_effects rf pf t out w rs w' :
  detect_drift ks_2samp rf pf t out w = (Ok rs, w') →
  csv_files w' = csv_files w ∧
  telemetry w' = telemetry w ∧
  clock w' = clock w ∧
  may_create_directories w' = may_create_directories w ∧
  artifacts w' = <[report_path out (clock w) := rs]> (artifacts w) ∧
  directories w' = <[out := true]> (directories w).
Proof.
  intros (ref & prod & _ & _ & _ & Hmk & Hd & ->)%detect_drift_Ok.
  revert Hmk Hd. unfold json_dump, makedirs.
  destruct (directories w !! out) as [b|] eqn:Hout; simpl.
  - rewrite Hout. destruct b; [|done]. simpl. intros _ _.
    split_and!; try done. by rewrite insert_id.
  - destruct (may_create_directories w); [|done]. simpl.
    rewrite lookup_insert_eq. simpl. intros _ _.
    split_and!; done.
Qed.

End DriftReportFacts.

Section DriftReportMoreFacts.

Variable ks_2samp : series → series → outcome (float * float).

Lemma drift_loop_nothing_retained cols ref prod t acc :
  (∀ col, col ∈ cols → retained prod col = false) →
  drift_loop ks_2samp cols ref prod t acc = Ok acc.
Proof.
  induction cols as [|col cols IH]; intros Hnone; [done|].
  rewrite drift_loop_cons, (Hnone col) by (by left).
  apply IH. intros c Hc. apply Hnone. by right.
Qed.

Lemma report_path_inj out now now' :
  report_path out now = report_path out now' → now = now'.
Proof.
  unfold report_path. intros H.
  apply (inj (String.app out)), (inj (String.app "/drift_")) in H.
  revert now' H. induction now as [|a now IH]; intros [|b now'] H; simpl in *.
  - done.
  - injection H as -> H. by destruct now' as [|? [|? [|? [|? [|? ?]]]]].
  - injection H as -> H. by destruct now as [|? [|? [|? [|? [|? ?]]]]].
  - injection H as -> H. f_equal. by apply IH.
Qed.

End DriftReportMoreFacts.

(** X1. The report holds one entry per compared column and nothing else:
    a feature is in the results exactly when its column is in both files and
    is not the label, and its entry carries the statistic and the p-value
    that [ks_2samp] returned for the two samples with missing values
    dropped. *)
Theorem results_record_comparisons
    (ks_2samp : series → series → outcome (float * float))
    (reference_file production_file : string) (t : float) (output_dir : string)
    (w w' : world) (ref prod : frame)
    (results : gmap string FeatureDriftResult) :
  csv_files w !! reference_file = Some ref →
  csv_files w !! production_file = Some prod →
  detect_drift ks_2samp reference_file production_file t output_dir w
    = (Ok results, w') →
  ∀ feature r,
    results !! feature = Some r ↔
    feature ∈ columns ref ∧ feature ≠ "Exited" ∧ feature ∈ columns prod ∧
    ∃ sample_ref sample_prod,
      sample_of ref feature = Ok sample_ref ∧
      sample_of prod feature = Ok sample_prod ∧
      ks_2samp sample_ref sample_prod = Ok (statistic r, p_value r) ∧
      drift_detected r = (p_value r <? t)%float ∧
      type r = "numerical".
Proof.
  intros Href Hprod Hrun f r.
  pose proof Hrun as (ref' & prod' & Href' & Hprod' & Hloop & _)%detect_drift_Ok.
  rewrite Href in Href'. rewrite Hprod in Hprod'.
  injection Href' as <-. injection Hprod' as <-.
  split.
  - intros Hf.
    destruct (drift_loop_lookup _ _ _ _ _ _ _ _ _ Hloop Hf)
      as [(Hin & [Hne Hinp]%retained_spec & He)|Hacc];
      [|by rewrite lookup_empty in Hacc].
    split_and!; try done.
    rewrite compare_column_of_samples in He.
    destruct (sample_of ref f) as [sr|]; [|done].
    destruct (sample_of prod f) as [sp|]; [|done]. simpl in He.
    destruct (ks_2samp sr sp) as [[stat p]|] eqn:Hks; [|done]. simpl in He.
    injection He as <-. by exists sr, sp.
  - intros (Hin & Hne & Hinp & sr & sp & Hsr & Hsp & Hks & Hflag & Hty).
    destruct (drift_loop_complete _ _ _ _ _ _ _ f Hloop Hin)
      as (e & He & Hf); [by apply retained_spec|].
    rewrite Hf. f_equal.
    rewrite compare_column_of_samples, Hsr, Hsp in He. simpl in He.
    rewrite Hks in He. injection He as <-.
    destruct r. simpl in *. by subst.
Qed.

(** X2. Not-a-number never flags a feature: an entry whose p-value is NaN
    is not flagged whatever the threshold, and a check run with a NaN
    threshold flags no feature at all. *)
Theorem nan_is_never_flagged
    (ks_2samp : series → series → outcome (float * float))
    (reference_file production_file : string) (t : float) (output_dir : string)
    (w w' : world) (results : gmap string FeatureDriftResult) :
  detect_drift ks_2samp reference_file production_file t output_dir w
    = (Ok results, w') →
  (∀ feature r, results !! feature = Some r →
     PrimFloat.is_nan (p_value r) = true → drift_detected r = false) ∧
  (PrimFloat.is_nan t = true → flagged results = ∅).
Proof.
  intros Hrun.
  assert (∀ f r, results !! f = Some r →
            drift_detected r = (p_value r <? t)%float) as Hflag.
  { intros f r Hf.
    destruct (detect_drift_entry _ _ _ _ _ _ _ _ _ _ Hrun Hf)
      as (ref & prod & _ & _ & _ & _ & He).
    by apply compare_column_inv in He as (? & ? & _ & _ & _ & ? & _). }
  split.
  - intros f r Hf Hnan. rewrite (Hflag f r Hf). by apply FloatNaN.ltb_nan_l.
  - intros Hnan. apply set_eq. intros f. rewrite elem_of_flagged.
    split; [|by intros ?%not_elem_of_empty].
    intros (r & Hf & Hd). rewrite (Hflag f r Hf) in Hd.
    by rewrite (FloatNaN.ltb_nan_r _ _ Hnan) in Hd.
Qed.

(** X3. A feature's entry depends on its own column only: two checks run
    with the same threshold on files that agree on the samples of one
    feature report the same entry for it, whatever the other columns
    hold. *)
Theorem feature_entries_are_independent
    (ks_2samp : series → series → outcome (float * float))
    (file1 file2 file1' file2' : string) (t : float) (out out' : string)
    (w w1 w' w1' : world) (ref prod ref' prod' : frame)
    (results results' : gmap string FeatureDriftResult)
    (feature : string) (r r' : FeatureDriftResult) :
  csv_files w !! file1 = Some ref →
  csv_files w !! file2 = Some prod →
  csv_files w' !! file1' = Some ref' →
  csv_files w' !! file2' = Some prod' →
  detect_drift ks_2samp file1 file2 t out w = (Ok results, w1) →
  detect_drift ks_2samp file1' file2' t out' w' = (Ok results', w1') →
  sample_of ref feature = sample_of ref' feature →
  sample_of prod feature = sample_of prod' feature →
  results !! feature = Some r →
  results' !! feature = Some r' →
  r = r'.
Proof.
  intros Href Hprod Href' Hprod' Hrun Hrun' Hr Hp Hf Hf'.
  destruct (detect_drift_entry _ _ _ _ _ _ _ _ _ _ Hrun Hf)
    as (? & ? & Ha & Hb & _ & _ & He).
  destruct (detect_drift_entry _ _ _ _ _ _ _ _ _ _ Hrun' Hf')
    as (? & ? & Ha' & Hb' & _ & _ & He').
  rewrite Href in Ha. rewrite Hprod in Hb.
  rewrite Href' in Ha'. rewrite Hprod' in Hb'.
  injection Ha as <-. injection Hb as <-.
  injection Ha' as <-. injection Hb' as <-.
  rewrite (compare_column_samples _ _ _ _ _ _ _ Hr Hp), He' in He.
  by injection He.
Qed.

(** X4. Only the compared samples matter.  Files that present the same
    columns and, in every column present in both and other than
    ["Exited"], the same values once missing cells are dropped, give the
    same outcome: the same results or the same exception.  The content of
    the label column, of columns found in one file only and the position of
    missing cells never influence a check. *)
Theorem report_depends_on_compared_samples
    (ks_2samp : series → series → outcome (float * float))
    (reference_file production_file : string) (t : float) (output_dir : string)
    (w w' : world) (ref prod ref' prod' : frame) :
  csv_files w !! reference_file = Some ref →
  csv_files w !! production_file = Some prod →
  csv_files w' !! reference_file = Some ref' →
  csv_files w' !! production_file = Some prod' →
  directories w = directories w' →
  may_create_directories w = may_create_directories w' →
  clock w = clock w' →
  same_compared_samples ref prod ref' prod' →
  (detect_drift ks_2samp reference_file production_file t output_dir w).1
    = (detect_drift ks_2samp reference_file production_file t output_dir w').1.
Proof.
  intros Href Hprod Href' Hprod' Hdirs Hcreate Hclock (Hcols & Hpcols & Hsame).
  destruct (makedirs_same output_dir w w' Hdirs Hcreate) as [Hmk Hmkd].
  rewrite !detect_drift_run. cbv zeta.
  rewrite Href, Hprod, Href', Hprod', <- Hmk, <- Hcols.
  rewrite <- (drift_loop_same_samples ks_2samp (columns ref) ref prod ref' prod'
                t ∅ Hpcols Hsame).
  destruct ((makedirs output_dir w).1); [|done].
  destruct (drift_loop _ _ _ _ _ _) as [rs|]; [|done].
  rewrite <- Hclock.
  rewrite <- (json_dump_same output_dir (report_path output_dir (clock w)) rs
                _ _ Hmkd).
  by destruct ((json_dump _ _ _ _).1).
Qed.


(** X6. The artifact name has second resolution.  Of two successful
    checks writing to the same directory, the second replaces the artifact
    of the first when the clock still reads the same second (the first
    report leaves no trace), and both artifacts are kept when the clock has
    moved on. *)
Theorem same_second_checks_collide
    (ks_2samp : series → series → outcome (float * float))
    (file1 file2 file1' file2' : string) (t t' : float) (output_dir : string)
    (now' : string) (w w1 w2 : world)
    (results results' : gmap string FeatureDriftResult) :
  detect_drift ks_2samp file1 file2 t output_dir w = (Ok results, w1) →
  detect_drift ks_2samp file1' file2' t' output_dir (at_time now' w1)
    = (Ok results', w2) →
  (now' = clock w →
     artifacts w2
       = <[report_path output_dir (clock w) := results']> (artifacts w)) ∧
  (now' ≠ clock w →
     artifacts w2 !! report_path output_dir (clock w) = Some results ∧
     artifacts w2 !! report_path output_dir now' = Some results').
Proof.
  intros (_ & _ & _ & _ & Ha1 & _)%detect_drift_effects
         (_ & _ & _ & _ & Ha2 & _)%detect_drift_effects.
  simpl in Ha2. rewrite Ha1 in Ha2. rewrite Ha2. split.
  - intros ->. apply insert_insert_eq.
  - intros Hne. split; [|apply lookup_insert_eq].
    rewrite lookup_insert_ne; [apply lookup_insert_eq|].
    intros Heq. by apply report_path_inj in Heq.
Qed.

(** X7. Files that share no column besides the label give an empty
    report, not an error: the check succeeds without ever consulting
    [ks_2samp], writes the empty report, and the endpoint answers with zero
    features analysed and logs a 0 percent, [LOW] assessment. *)
Theorem no_shared_column_gives_empty_report
    (ks_2samp : series → series → outcome (float * float))
    (reference_file production_file : string) (t : float) (output_dir : string)
    (w : world) (ref prod : frame) :
  csv_files w !! reference_file = Some ref →
  csv_files w !! production_file = Some prod →
  (∀ col, col ∈ columns ref → col ∈ columns prod → col = "Exited") →
  directories w !! output_dir = Some true
    ∨ (directories w !! output_dir = None ∧ may_create_directories w = true) →
  ∃ w',
    detect_drift ks_2samp reference_file production_file t output_dir w
      = (Ok ∅, w') ∧
    artifacts w' !! report_path output_dir (clock w) = Some ∅ ∧
    (reference_file = "data/bank_churn.csv" →
     production_file = "data/production_data.csv" →
     output_dir = default_output_dir →
     check_drift ks_2samp t w
       = (success 0 0 ∅,
          with_telemetry w' [drift_detection (Py.Int 0) LOW])).
Proof.
  intros Href Hprod Hnone Hdir.
  assert (drift_loop ks_2samp (columns ref) ref prod t ∅ = Ok ∅) as Hloop.
  { apply drift_loop_nothing_retained. intros col Hin.
    destruct (retained prod col) eqn:Hret; [|done].
    apply retained_spec in Hret as [Hne Hinp]. by destruct Hne; apply Hnone. }
  destruct (detect_drift_succeeds ks_2samp _ _ t output_dir w ref prod
              Hdir Href Hprod) as (rs & w' & Hrun).
  { intros col Hin [Hne Hinp]%retained_spec. by destruct Hne; apply Hnone. }
  pose proof Hrun as (? & ? & Ha & Hb & Hl & _)%detect_drift_Ok.
  rewrite Href in Ha. rewrite Hprod in Hb.
  injection Ha as <-. injection Hb as <-.
  rewrite Hloop in Hl. injection Hl as <-.
  exists w'. split_and!; [done | |].
  - apply detect_drift_effects in Hrun as (_ & _ & _ & _ & -> & _).
    apply lookup_insert_eq.
  - intros -> -> ->. unfold check_drift, bind. rewrite Hrun.
    by rewrite (log_drift_to_insights_run ∅ w' (Py.Int 0)).
Qed.

(** X8. What the logger receives.  [log_drift_to_insights] never raises
    and changes nothing but the telemetry, to which it appends the
    assessment followed by one [feature_drift] record per flagged
    feature; a record for feature [f] is sent exactly when [f] is flagged,
    and it carries the p-value, statistic and type of [f]'s entry. *)
Theorem insights_log_flagged_features
    (drift_results : gmap string FeatureDriftResult) (w : world) :
  ∃ pct records,
    drift_percentage drift_results = Ok pct ∧
    log_drift_to_insights drift_results w
      = (Ok (), with_telemetry w
                  (drift_detection pct (risk_of pct) :: records)) ∧
    length records = count_drifted drift_results ∧
    (∀ rec, rec ∈ records ↔
       ∃ f r, drift_results !! f = Some r ∧ drift_detected r = true ∧
              rec = feature_drift f (p_value r) (statistic r) (type r)).
Proof.
  exists (if decide (size drift_results = 0) then Py.Int 0
          else Py.Float
                 (Py.round (Py.float_of_nat (count_drifted drift_results)
                            / Py.float_of_nat (size drift_results) * 100)%float 2)),
         (feature_records (map_to_list drift_results)).
  split_and!.
  - apply drift_percentage_total.
  - apply log_drift_to_insights_run, drift_percentage_total.
  - rewrite count_drifted_length. unfold feature_records.
    rewrite length_fmap. generalize (map_to_list drift_results).
    intros l. induction l as [|[f r] l IH]; simpl; [done|].
    destruct (drift_detected r); simpl; by rewrite IH.
  - intros rec. unfold feature_records. rewrite list_elem_of_fmap. split.
    + intros ([f r] & -> & Hin).
      apply list_elem_of_In, List.filter_In in Hin as [Hin Hflag].
      apply list_elem_of_In, elem_of_map_to_list in Hin.
      by exists f, r.
    + intros (f & r & Hf & Hflag & ->). exists (f, r). split; [done|].
      apply list_elem_of_In, List.filter_In. split; [|done].
      by apply list_elem_of_In, elem_of_map_to_list.
Qed.

Section EndpointFacts.

Lemma filter_length_perm {A} (f : A → bool) (l l' : list A) :
  l ≡ₚ l' → length (List.filter f l) = length (List.filter f l').
Proof.
  induction 1 as [|x l l' _ IH|x y l|l l' l'' _ IH1 _ IH2]; simpl.
  - done.
  - destruct (f x); simpl; by rewrite IH.
  - by destruct (f x), (f y).
  - by rewrite IH1.
Qed.

Lemma count_drifted_insert (m : gmap string FeatureDriftResult) i x :
  m !! i = None →
  count_drifted (<[i := x]> m)
    = (if drift_detected x then 1 else 0) + count_drifted m.
Proof.
  intros Hi. rewrite !count_drifted_length.
  rewrite (filter_length_perm _ _ (x :: (map_to_list m).*2)).
  - simpl. by destruct (drift_detected x).
  - by rewrite map_to_list_insert.
Qed.

(** The count the endpoint reports is the number of flagged features. *)
Lemma count_drifted_flagged (m : gmap string FeatureDriftResult) :
  count_drifted m = size (flagged m).
Proof.
  unfold flagged. rewrite size_dom.
  induction m as [|i x m Hi IH] using map_ind.
  - by rewrite map_filter_empty.
  - rewrite (count_drifted_insert m i x Hi), IH.
    destruct (drift_detected x) eqn:Hx.
    + rewrite map_filter_insert_True by done.
      rewrite map_size_insert_None; [done|].
      by rewrite map_lookup_filter_None; left.
    + rewrite map_filter_insert_False, delete_id; [done..|].
      simpl. by rewrite Hx.
Qed.

Variable ks_2samp : series → series → outcome (float * float).

Lemma check_drift_run t w :
  check_drift ks_2samp t w =
    match detect_drift ks_2samp "data/bank_churn.csv" "data/production_data.csv"
            t default_output_dir w with
    | (Ok results, w1) =>
        (success (size results) (count_drifted results) results,
         (log_drift_to_insights results w1).2)
    | (Raise (FileNotFoundError f), w1) =>
        (HTTPException 404
           ("Fichier non trouvé: " +:+ str (FileNotFoundError f)), w1)
    | (Raise e, w1) =>
        (HTTPException 500 "Drift check failed", with_telemetry w1 [drift_error e])
    end.
Proof.
  unfold check_drift, bind.
  destruct (detect_drift _ _ _ _ _ w) as [[rs|e] w1].
  - destruct (drift_percentage rs) as [pct|] eqn:Hp;
      [|by rewrite drift_percentage_total in Hp].
    by rewrite (log_drift_to_insights_run rs w1 pct Hp).
  - by destruct e.
Qed.


End EndpointFacts.

(** X9. What a successful answer of the endpoint means: the results it
    carries are those [detect_drift] returned for the two fixed data files,
    [features_analyzed] is their number, [features_drifted] is the number of
    flagged features among them (so never more than [features_analyzed]),
    the report has been written under the timestamped name, and the
    assessment has been logged after the telemetry already there. *)
Theorem successful_check_answer
    (ks_2samp : series → series → outcome (float * float))
    (t : float) (w w' : world) (features_analyzed features_drifted : nat)
    (results : gmap string FeatureDriftResult) :
  check_drift ks_2samp t w
    = (success features_analyzed features_drifted results, w') →
  (∃ w1,
     detect_drift ks_2samp "data/bank_churn.csv" "data/production_data.csv" t
       default_output_dir w = (Ok results, w1)) ∧
  features_analyzed = size results ∧
  features_drifted = size (flagged results) ∧
  features_drifted ≤ features_analyzed ∧
  artifacts w' !! report_path default_output_dir (clock w) = Some results ∧
  (∃ pct records,
     drift_percentage results = Ok pct ∧
     telemetry w'
       = telemetry w ++ drift_detection pct (risk_of pct) :: records).
Proof.
  rewrite check_drift_run.
  destruct (detect_drift _ _ _ _ _ w) as [[rs|e] w1] eqn:Hrun;
    [|by destruct e].
  intros [= Hn Hd Hr Hw]. subst rs.
  revert Hw.
  destruct (drift_percentage results) as [pct|] eqn:Hp;
    [|by rewrite drift_percentage_total in Hp].
  rewrite (log_drift_to_insights_run results w1 pct Hp). simpl.
  intros <-. simpl.
  apply detect_drift_effects in Hrun as Heff.
  destruct Heff as (_ & Htel & _ & _ & Hart & _).
  subst features_analyzed features_drifted.
  split_and!.
  - by exists w1.
  - done.
  - apply count_drifted_flagged.
  - apply count_drifted_le.
  - rewrite Hart. apply lookup_insert_eq.
  - exists pct, (feature_records (map_to_list results)).
    by rewrite Htel.
Qed.


(** * The visual report *)

Section VisualReportFacts.

Lemma lookup_all_items {A} (field : FeatureDriftResult → A)
    (results : gmap string FeatureDriftResult)
    (items : list (string * FeatureDriftResult)) :
  (∀ kv, kv ∈ items → results !! kv.1 = Some kv.2) →
  lookup_all field results items.*1 = Ok (field <$> items.*2).
Proof.
  induction items as [|[f r] items IH]; intros Hall; [done|].
  pose proof (Hall (f, r) ltac:(by left)) as Hf. simpl in Hf.
  change (lookup_all field results ((f, r) :: items).*1)
    with (match results !! f with
          | Some r0 =>
              try! rest := lookup_all field results items.*1 in
              Ok (field r0 :: rest)
          | None => Raise (KeyError f)
          end).
  rewrite Hf, IH; [done|]. intros kv Hkv. apply Hall. by right.
Qed.

Lemma lookup_all_keys {A} (field : FeatureDriftResult → A)
    (results : gmap string FeatureDriftResult) :
  lookup_all field results (map_to_list results).*1
    = Ok (field <$> (map_to_list results).*2).
Proof.
  apply lookup_all_items. intros [f r] Hin. by apply elem_of_map_to_list.
Qed.

Lemma zip3_items (items : list (string * FeatureDriftResult)) :
  zip3 items.*1 (p_value <$> items.*2)
    ((λ x : bool, if x then red else green) <$> (drift_detected <$> items.*2))
  = bar_of <$> items.
Proof.
  unfold zip3. induction items as [|[f r] items IH]; [done|].
  simpl. f_equal. exact IH.
Qed.

Lemma generate_drift_report_run results out d :
  generate_drift_report results out d =
    match on_filesystem (makedirs out) d with
    | (Raise e, d1) => (Raise e, d1)
    | (Ok _, d1) =>
        match savefig out (figure_path out (clock (filesystem d1)))
                (figure_of results) d1 with
        | (Raise e, d2) => (Raise e, d2)
        | (Ok _, d2) => (Ok (figure_path out (clock (filesystem d1))), d2)
        end
    end.
Proof.
  unfold generate_drift_report.
  destruct (on_filesystem (makedirs out) d) as [[[]|e] d1]; [|done].
  rewrite !lookup_all_keys. cbv zeta. by rewrite zip3_items.
Qed.

Lemma elem_of_bars results f p c :
  (f, p, c) ∈ bars (figure_of results) ↔
  ∃ r, results !! f = Some r ∧ p = p_value r ∧
       c = (if drift_detected r then red else green).
Proof.
  simpl. rewrite list_elem_of_fmap. split.
  - intros ([f' r] & [= -> -> ->] & Hin%elem_of_map_to_list). by exists r.
  - intros (r & Hf & -> & ->). exists (f, r).
    split; [done | by apply elem_of_map_to_list].
Qed.

End VisualReportFacts.

(** X11. The chart shows the report.  When the output directory is
    writable or can be created, [generate_drift_report] saves one image
    under [<output_dir>/drift_report_<clock>.png], returns that path, and
    leaves the JSON artifacts alone; the image has exactly one bar per
    feature of the results, as long as its p-value, red when the feature is
    flagged and green when it is not. *)
Theorem chart_shows_the_report
    (results : gmap string FeatureDriftResult) (output_dir : string)
    (d : desk) :
  directories (filesystem d) !! output_dir = Some true
    ∨ (directories (filesystem d) !! output_dir = None
       ∧ may_create_directories (filesystem d) = true) →
  ∃ fig d',
    generate_drift_report results output_dir d
      = (Ok (figure_path output_dir (clock (filesystem d))), d') ∧
    images d'
      = <[figure_path output_dir (clock (filesystem d)) := fig]> (images d) ∧
    artifacts (filesystem d') = artifacts (filesystem d) ∧
    length (bars fig) = size results ∧
    (∀ f p c,
       (f, p, c) ∈ bars fig ↔
       ∃ r, results !! f = Some r ∧ p = p_value r ∧
            c = (if drift_detected r then red else green)).
Proof.
  intros Hdir. exists (figure_of results).
  rewrite generate_drift_report_run. unfold on_filesystem, savefig, makedirs.
  destruct Hdir as [Hd|[Hd Hc]]; rewrite Hd; [|rewrite Hc]; simpl;
    rewrite ?Hd, ?lookup_insert_eq; simpl;
    (eexists; split_and!; [reflexivity | done | done | | apply elem_of_bars]);
    by rewrite length_fmap, length_map_to_list.
Qed.

(** X12. Colours follow the check, the line does not.  In the chart of
    results that [detect_drift] returned for threshold [t], a bar is red
    exactly when its p-value is below [t]; the reference line is drawn at
    0.05 whatever [t] was. *)
Theorem chart_colours_follow_threshold
    (ks_2samp : series → series → outcome (float * float))
    (reference_file production_file : string) (t : float)
    (output_dir chart_dir : string) (w w' : world)
    (results : gmap string FeatureDriftResult)
    (d d' : desk) (path : string) :
  detect_drift ks_2samp reference_file production_file t output_dir w
    = (Ok results, w') →
  generate_drift_report results chart_dir d = (Ok path, d') →
  ∃ fig,
    images d' !! path = Some fig ∧
    axvline fig = 0.05%float ∧
    (∀ f p c, (f, p, c) ∈ bars fig → (c = red ↔ (p <? t)%float = true)).
Proof.
  intros Hrun. rewrite generate_drift_report_run.
  destruct (on_filesystem (makedirs chart_dir) d) as [[[]|e] d1]; [|done].
  unfold savefig.
  destruct (directories (filesystem d1) !! chart_dir) as [[]|]; [|done..].
  intros [= <- <-]. exists (figure_of results). simpl.
  split_and!; [apply lookup_insert_eq | done |].
  intros f p c (r & Hf & -> & ->)%elem_of_bars.
  destruct (detect_drift_entry _ _ _ _ _ _ _ _ _ _ Hrun Hf)
    as (? & ? & _ & _ & _ & _ & He).
  apply compare_column_inv in He as (_ & _ & _ & _ & _ & <- & _).
  by destruct (drift_detected r).
Qed.

(** * The prediction endpoints *)

Module FloatTotal.

Lemma is_nan_false_spec (x : float) :
  PrimFloat.is_nan x = false → Prim2SF x ≠ S754_nan.
Proof.
  unfold PrimFloat.is_nan. rewrite FloatAxioms.eqb_spec, negb_false_iff.
  intros H Hn. by rewrite Hn in H.
Qed.

(** Two numbers that are not NaN compare one way or the other. *)
Lemma SFltb_false_leb x y :
  x ≠ S754_nan → y ≠ S754_nan → SFltb x y = false → SFleb y x = true.
Proof.
  unfold SFltb, SFleb.
  destruct x as [[]|[]| |[] ? ?], y as [[]|[]| |[] ? ?];
    simpl; try done; intros _ _;
    FloatOrder.split_comparisons; simpl; try done; intros; lia.
Qed.

Lemma SFltb_leb_trans x y z :
  SFltb x y = true → SFleb y z = true → SFltb x z = true.
Proof. unfold SFltb, SFleb. FloatOrder.by_shape x y z. Qed.

Lemma ltb_false_leb (x y : float) :
  PrimFloat.is_nan x = false → PrimFloat.is_nan y = false →
  (x <? y)%float = false → (y <=? x)%float = true.
Proof.
  intros Hx%is_nan_false_spec Hy%is_nan_false_spec.
  rewrite ltb_spec, leb_spec. by apply SFltb_false_leb.
Qed.

Lemma ltb_leb_trans (x y z : float) :
  (x <? y)%float = true → (y <=? z)%float = true → (x <? z)%float = true.
Proof. rewrite !ltb_spec, leb_spec. apply SFltb_leb_trans. Qed.

End FloatTotal.

Section PredictionFacts.

Variable m : classifier.

(** The item [predict_batch] appends for one customer. *)
Lemma batch_loop_app features_list acc :
  batch_loop m features_list acc =
    try! items := batch_loop m features_list [] in Ok (acc ++ items).
Proof.
  revert acc. induction features_list as [|f fs IH]; intros acc; simpl.
  - by rewrite app_nil_r.
  - destruct (m (input_data f)) as [proba|]; [|done]. simpl.
    rewrite IH, (IH [_]).
    destruct (batch_loop m fs []); [|done]. simpl.
    by rewrite <- app_assoc.
Qed.

Lemma batch_loop_cons f fs :
  batch_loop m (f :: fs) [] =
    try! proba := m (input_data f) in
    try! items := batch_loop m fs [] in
    Ok ((Py.round proba 4, predicted_class proba) :: items).
Proof.
  simpl. destruct (m (input_data f)) as [proba|]; [|done]. simpl.
  by rewrite batch_loop_app.
Qed.

Lemma batch_loop_items fs items :
  batch_loop m fs [] = Ok items →
  Forall2 (λ f item, ∃ proba, m (input_data f) = Ok proba ∧
             item = (Py.round proba 4, predicted_class proba)) fs items.
Proof.
  revert items. induction fs as [|f fs IH]; intros items.
  - intros [= <-]. constructor.
  - rewrite batch_loop_cons.
    destruct (m (input_data f)) as [proba|] eqn:Hf; [|done]. simpl.
    destruct (batch_loop m fs []) as [rest|]; [|done]. simpl.
    intros [= <-]. constructor; [by exists proba | by apply IH].
Qed.

Lemma batch_loop_first_failure before f after e :
  Forall (λ g, ∃ proba, m (input_data g) = Ok proba) before →
  m (input_data f) = Raise e →
  batch_loop m (before ++ f :: after) [] = Raise e.
Proof.
  intros Hbefore Hf. induction Hbefore as [|g before [proba Hg] _ IH].
  - simpl. by rewrite Hf.
  - rewrite <- app_comm_cons, batch_loop_cons, Hg. simpl. by rewrite IH.
Qed.

End PredictionFacts.

(** X13. The class and the risk band of a prediction agree.  In a
    successful answer of [/predict] a customer rated [Low] is never
    predicted to leave, and a customer rated [High] is predicted to leave,
    except when the model returns NaN: the answer is then prediction 0
    with risk [High].  The probability answered is the model's rounded to
    4 decimals, the one logged is not rounded. *)
Theorem prediction_agrees_with_risk
    (model : option classifier) (features : CustomerFeatures)
    (r : PredictionResponse) (logs : list prediction_log) :
  predict model features = (Respond r, logs) →
  ∃ m proba,
    model = Some m ∧ m (input_data features) = Ok proba ∧
    churn_probability r = Py.round proba 4 ∧
    logs = [prediction_record proba (prediction r) (risk_level r)] ∧
    (risk_level r = Low → prediction r = 0%Z) ∧
    (PrimFloat.is_nan proba = false → risk_level r = High →
       prediction r = 1%Z) ∧
    (PrimFloat.is_nan proba = true →
       prediction r = 0%Z ∧ risk_level r = High).
Proof.
  unfold predict. destruct model as [m|]; [|done].
  destruct (m (input_data features)) as [proba|] eqn:Hm; [|done].
  intros [= <- <-]. exists m, proba. simpl.
  unfold predicted_class, churn_risk_of. split_and!; try done.
  - destruct (proba <? 0.3)%float eqn:H3.
    + by rewrite (FloatOrder.ltb_not_ltb 0.5 0.3 proba).
    + by destruct (proba <? 0.7)%float.
  - intros Hnan. destruct (proba <? 0.3)%float; [done|].
    destruct (proba <? 0.7)%float eqn:H7; [done|]. intros _.
    rewrite (FloatTotal.ltb_leb_trans 0.5 0.7 proba); [done..|].
    by apply FloatTotal.ltb_false_leb.
  - intros Hnan. by rewrite !(FloatNaN.ltb_nan_l _ _ Hnan),
      (FloatNaN.ltb_nan_r _ _ Hnan).
Qed.

(** X14. A batch is the single predictions put together.  When
    [/predict/batch] succeeds, it answers and logs as [count] the number
    of customers sent, and the i-th prediction carries the probability and
    the class that [/predict] answers for the i-th customer. *)
Theorem batch_agrees_with_predict
    (model : option classifier) (features_list : list CustomerFeatures)
    (predictions : list (float * Z)) (count : nat)
    (logs : list prediction_log) :
  predict_batch model features_list = (Respond (predictions, count), logs) →
  count = length features_list ∧
  length predictions = length features_list ∧
  logs = [batch_prediction (length features_list)] ∧
  (∀ i features,
     features_list !! i = Some features →
     ∃ r l,
       predict model features = (Respond r, l) ∧
       predictions !! i = Some (churn_probability r, prediction r)).
Proof.
  unfold predict_batch. destruct model as [m|]; [|done].
  destruct (batch_loop m features_list []) as [items|] eqn:Hloop; [|done].
  intros [= <- <- <-].
  apply batch_loop_items in Hloop.
  rewrite <- (Forall2_length _ _ _ Hloop). split_and!; try done.
  intros i f Hi.
  destruct (Forall2_lookup_l _ _ _ _ _ Hloop Hi)
    as (item & Hitem & proba & Hf & ->).
  unfold predict. rewrite Hf. by eexists _, _.
Qed.

(** X15. A batch is all or nothing.  As soon as the model raises for one
    customer, [/predict/batch] answers 500 with that exception's message
    and logs it; the predictions computed for the customers before are not
    returned. *)
Theorem batch_is_all_or_nothing
    (m : classifier) (before after : list CustomerFeatures)
    (features : CustomerFeatures) (e : exn) :
  Forall (λ g, ∃ proba, m (input_data g) = Ok proba) before →
  m (input_data features) = Raise e →
  predict_batch (Some m) (before ++ features :: after)
    = (Abort 500 (str e), [batch_prediction_error (str e)]).
Proof.
  intros Hbefore Hf. unfold predict_batch.
  by rewrite (batch_loop_first_failure m before features after e).
Qed.

(** X16. The form cannot be refused for its ranges.  Whatever the user
    sets, the request the single-customer form builds satisfies every
    bound of the [CustomerFeatures] schema, and at most one of the two
    geography flags is set. *)
Theorem form_request_within_schema (f : form) :
  widget_ranges f →
  within_schema (customer_data f) = true ∧
  (Geography_Germany (customer_data f)
     + Geography_Spain (customer_data f) ≤ 1)%Z.
Proof.
  intros (Hcs & Hage & Hten & Hgeo & Hbal & Hnum & Hsal).
  split.
  - unfold within_schema, customer_data. simpl. rewrite Hbal, Hsal.
    repeat (apply andb_true_intro; split); try (apply Z.leb_le; lia);
      try done; by repeat case_match.
  - unfold customer_data. simpl.
    repeat case_bool_decide; try lia. congruence.
Qed.

(** * Example runs of the further properties *)

Lemma results_record_comparisons_witness :
  ∃ r,
    the_results (demo_run 0.05 demo_world).1 !! "Age" = Some r ∧
    "Age" ∈ columns demo_reference ∧ "Age" ≠ "Exited" ∧
    "Age" ∈ columns demo_production ∧
    ∃ sample_ref sample_prod,
      sample_of demo_reference "Age" = Ok sample_ref ∧
      sample_of demo_production "Age" = Ok sample_prod ∧
      demo_ks sample_ref sample_prod = Ok (statistic r, p_value r) ∧
      drift_detected r = (p_value r <? 0.05)%float ∧
      type r = "numerical".
Proof.
  eexists. split; [run|].
  apply (proj1 (results_record_comparisons demo_ks "data/bank_churn.csv"
                  "data/production_data.csv" 0.05 default_output_dir
                  demo_world (demo_run 0.05 demo_world).2
                  demo_reference demo_production
                  (the_results (demo_run 0.05 demo_world).1)
                  eq_refl eq_refl ltac:(run) "Age" _)); run.
Defined.

Lemma nan_is_never_flagged_witness :
  (∀ feature r,
     the_results (demo_run nan demo_world).1 !! feature = Some r →
     PrimFloat.is_nan (p_value r) = true → drift_detected r = false) ∧
  (PrimFloat.is_nan nan = true →
   flagged (the_results (demo_run nan demo_world).1) = ∅).
Proof.
  apply (nan_is_never_flagged demo_ks "data/bank_churn.csv"
           "data/production_data.csv" nan default_output_dir demo_world
           (demo_run nan demo_world).2); run.
Defined.

Lemma feature_entries_are_independent_witness :
  ∃ r r',
    the_results (demo_run 0.05 demo_world).1 !! "Balance" = Some r ∧
    the_results (demo_run 0.05 alternative_world).1 !! "Balance" = Some r' ∧
    r = r'.
Proof.
  eexists _, _. split; [run|]. split; [run|].
  apply (feature_entries_are_independent demo_ks
           "data/bank_churn.csv" "data/production_data.csv"
           "data/bank_churn.csv" "data/production_data.csv"
           0.05 default_output_dir default_output_dir
           demo_world (demo_run 0.05 demo_world).2
           alternative_world (demo_run 0.05 alternative_world).2
           demo_reference demo_production
           alternative_reference alternative_production
           (the_results (demo_run 0.05 demo_world).1)
           (the_results (demo_run 0.05 alternative_world).1)
           "Balance"); run.
Defined.

Lemma report_depends_on_compared_samples_witness :
  (demo_run 0.05 demo_world).1 = (demo_run 0.05 alternative_world).1.
Proof.
  apply (report_depends_on_compared_samples demo_ks "data/bank_churn.csv"
           "data/production_data.csv" 0.05 default_output_dir
           demo_world alternative_world demo_reference demo_production
           alternative_reference alternative_production); try run.
  split_and!; [run | done |].
  intros col Hin Hne Hinp.
  repeat (apply elem_of_cons in Hin as [->|Hin]); try done;
    try (by apply elem_of_nil in Hin);
    try (split; run).
  exfalso. revert Hinp. by apply (bool_decide_eq_false_1 _).
Defined.

Lemma same_second_checks_collide_witness :
  ("20240101_120000" = clock demo_world →
     artifacts (demo_run 0.5 (at_time "20240101_120000"
                                (demo_run 0.05 demo_world).2)).2
       = <[report_path default_output_dir (clock demo_world)
             := the_results (demo_run 0.5 demo_world).1]>
           (artifacts demo_world)) ∧
  ("20240101_120000" ≠ clock demo_world →
     artifacts (demo_run 0.5 (at_time "20240101_120000"
                                (demo_run 0.05 demo_world).2)).2
       !! report_path default_output_dir (clock demo_world)
       = Some (the_results (demo_run 0.05 demo_world).1) ∧
     artifacts (demo_run 0.5 (at_time "20240101_120000"
                                (demo_run 0.05 demo_world).2)).2
       !! report_path default_output_dir "20240101_120000"
       = Some (the_results (demo_run 0.5 demo_world).1)).
Proof.
  apply (same_second_checks_collide demo_ks
           "data/bank_churn.csv" "data/production_data.csv"
           "data/bank_churn.csv" "data/production_data.csv"
           0.05 0.5 default_output_dir "20240101_120000"
           demo_world (demo_run 0.05 demo_world).2); run.
Defined.

Lemma no_shared_column_gives_empty_report_witness :
  ∃ w',
    demo_run 0.05 disjoint_world = (Ok ∅, w') ∧
    artifacts w' !! report_path default_output_dir (clock disjoint_world)
      = Some ∅ ∧
    ("data/bank_churn.csv" = "data/bank_churn.csv" →
     "data/production_data.csv" = "data/production_data.csv" →
     default_output_dir = default_output_dir →
     check_drift demo_ks 0.05 disjoint_world
       = (success 0 0 ∅,
          with_telemetry w' [drift_detection (Py.Int 0) LOW])).
Proof.
  apply (no_shared_column_gives_empty_report demo_ks "data/bank_churn.csv"
           "data/production_data.csv" 0.05 default_output_dir disjoint_world
           [("Age", [30; 40]%float); ("Exited", [0; 1]%float)]
           [("Tenure", [1; 2]%float); ("Exited", [0; 0]%float)]);
    [run | run | | right; split; run].
  intros col Hin Hinp.
  repeat (apply elem_of_cons in Hin as [->|Hin]); try done;
    try (by apply elem_of_nil in Hin).
  exfalso. revert Hinp. by apply (bool_decide_eq_false_1 _).
Defined.

Lemma successful_check_answer_witness :
  (∃ w1, demo_run 0.5 demo_world
         = (Ok (the_results (demo_run 0.5 demo_world).1), w1)) ∧
  the_analyzed (check_run 0.5 demo_world).1
    = size (the_results (demo_run 0.5 demo_world).1) ∧
  the_drifted (check_run 0.5 demo_world).1
    = size (flagged (the_results (demo_run 0.5 demo_world).1)) ∧
  the_drifted (check_run 0.5 demo_world).1
    ≤ the_analyzed (check_run 0.5 demo_world).1 ∧
  artifacts (check_run 0.5 demo_world).2
    !! report_path default_output_dir (clock demo_world)
    = Some (the_results (demo_run 0.5 demo_world).1) ∧
  (∃ pct records,
     drift_percentage (the_results (demo_run 0.5 demo_world).1) = Ok pct ∧
     telemetry (check_run 0.5 demo_world).2
       = telemetry demo_world ++ drift_detection pct (risk_of pct) :: records).
Proof.
  apply (successful_check_answer demo_ks 0.5 demo_world
           (check_run 0.5 demo_world).2
           (the_analyzed (check_run 0.5 demo_world).1)
           (the_drifted (check_run 0.5 demo_world).1)
           (the_results (demo_run 0.5 demo_world).1)); run.
Defined.



Lemma chart_shows_the_report_witness :
  ∃ fig d',
    generate_drift_report (the_results (demo_run 0.5 demo_world).1)
      default_output_dir (desk_of demo_world)
      = (Ok (figure_path default_output_dir (clock demo_world)), d') ∧
    images d'
      = <[figure_path default_output_dir (clock demo_world) := fig]> ∅ ∧
    artifacts (filesystem d') = artifacts demo_world ∧
    length (bars fig) = size (the_results (demo_run 0.5 demo_world).1) ∧
    (∀ f p c,
       (f, p, c) ∈ bars fig ↔
       ∃ r, the_results (demo_run 0.5 demo_world).1 !! f = Some r ∧
            p = p_value r ∧
            c = (if drift_detected r then red else green)).
Proof.
  apply (chart_shows_the_report (the_results (demo_run 0.5 demo_world).1)
           default_output_dir (desk_of demo_world)).
  right. split; run.
Defined.

Lemma chart_colours_follow_threshold_witness :
  ∃ fig,
    images (generate_drift_report (the_results (demo_run 0.5 demo_world).1)
              default_output_dir (desk_of demo_world)).2
      !! figure_path default_output_dir (clock demo_world) = Some fig ∧
    axvline fig = 0.05%float ∧
    (∀ f p c, (f, p, c) ∈ bars fig → (c = red ↔ (p <? 0.5)%float = true)).
Proof.
  apply (chart_colours_follow_threshold demo_ks "data/bank_churn.csv"
           "data/production_data.csv" 0.5 default_output_dir
           default_output_dir demo_world (demo_run 0.5 demo_world).2
           (the_results (demo_run 0.5 demo_world).1)
           (desk_of demo_world)); run.
Defined.

Lemma prediction_agrees_with_risk_witness :
  ∃ m proba,
    Some demo_model = Some m ∧ m (input_data older_customer) = Ok proba ∧
    churn_probability
      (the_body {| churn_probability := 0; prediction := 0; risk_level := Low |}
         (predict (Some demo_model) older_customer).1)
      = Py.round proba 4 ∧
    (predict (Some demo_model) older_customer).2
      = [prediction_record proba 1 High] ∧
    (High = Low → 1 = 0)%Z ∧
    (PrimFloat.is_nan proba = false → High = High → 1 = 1)%Z ∧
    (PrimFloat.is_nan proba = true → (1 = 0)%Z ∧ High = High).
Proof.
  apply (prediction_agrees_with_risk (Some demo_model) older_customer
           {| churn_probability := 0.8; prediction := 1; risk_level := High |}
           (predict (Some demo_model) older_customer).2); run.
Defined.

Lemma batch_agrees_with_predict_witness :
  2 = length [test_customer; older_customer] ∧
  length [(0.2, 0%Z); (0.8, 1%Z)]%float
    = length [test_customer; older_customer] ∧
  (predict_batch (Some demo_model) [test_customer; older_customer]).2
    = [batch_prediction (length [test_customer; older_customer])] ∧
  (∀ i features,
     [test_customer; older_customer] !! i = Some features →
     ∃ r l,
       predict (Some demo_model) features = (Respond r, l) ∧
       [(0.2, 0%Z); (0.8, 1%Z)]%float !! i
         = Some (churn_probability r, prediction r)).
Proof.
  apply (batch_agrees_with_predict (Some demo_model)
           [test_customer; older_customer]
           [(0.2, 0%Z); (0.8, 1%Z)]%float 2
           (predict_batch (Some demo_model)
              [test_customer; older_customer]).2); run.
Defined.

Lemma batch_is_all_or_nothing_witness :
  predict_batch (Some demo_model)
    ([test_customer; older_customer] ++ unreadable_customer :: [test_customer])
  = (Abort 500 "Input contains NaN.",
     [batch_prediction_error "Input contains NaN."]).
Proof.
  apply (batch_is_all_or_nothing demo_model [test_customer; older_customer]
           [test_customer] unreadable_customer
           (ValueError "Input contains NaN.")); [|run].
  repeat constructor; eexists; run.
Defined.

Lemma form_request_within_schema_witness :
  within_schema (customer_data default_form) = true ∧
  (Geography_Germany (customer_data default_form)
     + Geography_Spain (customer_data default_form) ≤ 1)%Z.
Proof.
  apply (form_request_within_schema default_form).
  unfold widget_ranges. simpl.
  split_and!; try lia; try reflexivity. by apply (bool_decide_eq_true_1 _).
Defined.

(** X17. Thresholds outside the unit interval.  When the p-values of a
    report are probabilities (between 0 and 1), a check run with a
    threshold of 0 or less flags no feature and a check run with a
    threshold above 1 flags every feature. *)
Theorem degenerate_thresholds
    (ks_2samp : series → series → outcome (float * float))
    (reference_file production_file : string) (t : float) (output_dir : string)
    (w w' : world) (results : gmap string FeatureDriftResult) :
  detect_drift ks_2samp reference_file production_file t output_dir w
    = (Ok results, w') →
  map_Forall (λ _ r, (0 <=? p_value r)%float = true
                     ∧ (p_value r <=? 1)%float = true) results →
  ((t <=? 0)%float = true → flagged results = ∅) ∧
  ((1 <? t)%float = true → flagged results = dom results).
Proof.
  intros Hrun Hp.
  assert (∀ f r, results !! f = Some r →
            drift_detected r = (p_value r <? t)%float) as Hflag.
  { intros f r Hf.
    destruct (detect_drift_entry _ _ _ _ _ _ _ _ _ _ Hrun Hf)
      as (ref & prod & _ & _ & _ & _ & He).
    by apply compare_column_inv in He as (? & ? & _ & _ & _ & ? & _). }
  split; intros Ht; apply set_eq; intros f; rewrite elem_of_flagged.
  - split; [|by intros ?%not_elem_of_empty].
    intros (r & Hf & Hd). rewrite (Hflag f r Hf) in Hd.
    destruct (Hp f r Hf) as [H0 _].
    pose proof (FloatTotal.ltb_leb_trans _ _ _ Hd Ht) as Hlt.
    by rewrite (FloatOrder.leb_not_ltb 0 0 (p_value r)) in Hlt.
  - rewrite elem_of_dom. split; [by intros (r & -> & _)|].
    intros [r Hf]. exists r. split; [done|].
    destruct (Hp f r Hf) as [_ H1].
    rewrite (Hflag f r Hf). by apply (FloatOrder.leb_ltb_trans _ 1).
Qed.

Lemma degenerate_thresholds_witness :
  ((0 <=? 0)%float = true
   → flagged (the_results (demo_run 0 demo_world).1) = ∅) ∧
  ((1 <? 0)%float = true
   → flagged (the_results (demo_run 0 demo_world).1)
     = dom (the_results (demo_run 0 demo_world).1)).
Proof.
  apply (degenerate_thresholds demo_ks "data/bank_churn.csv"
           "data/production_data.csv" 0 default_output_dir demo_world
           (demo_run 0 demo_world).2); [run|].
  apply (bool_decide_eq_true_1 _). run.
Defined.
